(** * Verification of the document-creation helpers and of the signup action

  Shallow embedding of
  - [src/lib/db/createOperationDB.js]: [validatorOneDoc], [createOneDoc],
    [createManyDocs];
  - the signup server action: [signUpAction], [phoneSchema], [signupSchema],
    [validateSignupFormData].

  JavaScript strings are modelled as [string] over ASCII code units: the
  case mapping and the white space test below are the ECMAScript ones
  restricted to code units below 128, every other code unit is neither a
  letter nor white space. *)

From Stdlib Require Import String Ascii List Bool Arith Lia PrimFloat.
From Stdlib Require DecimalString.
From stdpp Require Import base option list gmap strings.

Set Default Proof Using "Type".
Set Warnings "-register-all".

(** ** ECMAScript strings *)
Module JsString.

(** WhiteSpace and LineTerminator code units stripped by
    [String.prototype.trim]: TAB, LF, VT, FF, CR and SPACE. *)
Definition isWhiteSpace (c : ascii) : bool :=
  let n := nat_of_ascii c in
  (n =? 9) || (n =? 10) || (n =? 11) || (n =? 12) || (n =? 13) || (n =? 32).

(** [c.toUpperCase()] on one code unit: a-z go to A-Z. *)
Definition toUpperCaseChar (c : ascii) : ascii :=
  let n := nat_of_ascii c in
  if (97 <=? n) && (n <=? 122) then ascii_of_nat (n - 32) else c.

Fixpoint toUpperCase (s : string) : string :=
  match s with
  | EmptyString => EmptyString
  | String c r => String (toUpperCaseChar c) (toUpperCase r)
  end.

(** [c.toLowerCase()] on one code unit: A-Z go to a-z. *)
Definition toLowerCaseChar (c : ascii) : ascii :=
  let n := nat_of_ascii c in
  if (65 <=? n) && (n <=? 90) then ascii_of_nat (n + 32) else c.

Fixpoint toLowerCase (s : string) : string :=
  match s with
  | EmptyString => EmptyString
  | String c r => String (toLowerCaseChar c) (toLowerCase r)
  end.

Fixpoint trimStart (s : string) : string :=
  match s with
  | EmptyString => EmptyString
  | String c r => if isWhiteSpace c then trimStart r else s
  end.

Fixpoint trimEnd (s : string) : string :=
  match s with
  | EmptyString => EmptyString
  | String c r =>
      match trimEnd r with
      | EmptyString => if isWhiteSpace c then EmptyString else String c EmptyString
      | r' => String c r'
      end
  end.

(** [s.trim()] *)
Definition trim (s : string) : string := trimEnd (trimStart s).

(** [s[0]]: [None] stands for [undefined]. *)
Definition at0 (s : string) : option ascii :=
  match s with
  | EmptyString => None
  | String c _ => Some c
  end.

(** [s.slice(1)] *)
Definition slice1 (s : string) : string :=
  match s with
  | EmptyString => EmptyString
  | String _ r => r
  end.

(** [s.includes(pat)], which is also what [/pat/.test(s)] computes when
    [pat] has no regular-expression metacharacter. *)
Fixpoint includes (pat s : string) : bool :=
  String.prefix pat s ||
  match s with
  | EmptyString => false
  | String _ r => includes pat r
  end.

(** [/^\d+$/.test(s)] *)
Definition isDigit (c : ascii) : bool :=
  let n := nat_of_ascii c in (48 <=? n) && (n <=? 57).

Fixpoint allDigits (s : string) : bool :=
  match s with
  | EmptyString => true
  | String c r => isDigit c && allDigits r
  end.

Definition test_digits (s : string) : bool :=
  match s with
  | EmptyString => false
  | _ => allDigits s
  end.

(** [arr.join(sep)] on an array of strings. *)
Definition join (sep : string) (arr : list string) : string :=
  String.concat sep arr.

Fixpoint allWhiteSpace (s : string) : bool :=
  match s with
  | EmptyString => true
  | String c r => isWhiteSpace c && allWhiteSpace r
  end.

End JsString.

(** ** ECMAScript values *)
Module Js.
Import JsString.

(** The values the embedded functions receive: primitives, arrays and
    plain objects.  The properties of an object are kept in the order
    [Object.keys] enumerates them. *)
Inductive JsValue : Type :=
| JUndefined
| JNull
| JBoolean (b : bool)
| JNumber (x : float)
| JString (s : string)
| JArray (elems : list JsValue)
| JObject (props : list (string * JsValue)).

(** [typeof v] *)
Definition typeof (v : JsValue) : string :=
  match v with
  | JUndefined => "undefined"
  | JNull => "object"
  | JBoolean _ => "boolean"
  | JNumber _ => "number"
  | JString _ => "string"
  | JArray _ => "object"
  | JObject _ => "object"
  end.

Definition isNull (v : JsValue) : bool :=
  match v with JNull => true | _ => false end.

(** [Array.isArray(v)] *)
Definition Array_isArray (v : JsValue) : bool :=
  match v with JArray _ => true | _ => false end.

(** [Boolean(v)] *)
Definition Boolean (v : JsValue) : bool :=
  match v with
  | JUndefined | JNull => false
  | JBoolean b => b
  | JNumber x => negb (PrimFloat.is_zero x || PrimFloat.is_nan x)
  | JString s => negb (String.eqb s EmptyString)
  | JArray _ | JObject _ => true
  end.

Definition indexKey (i : nat) : string :=
  DecimalString.NilEmpty.string_of_uint (Nat.to_uint i).

Fixpoint chars (s : string) : list JsValue :=
  match s with
  | EmptyString => []
  | String c r => JString (String c EmptyString) :: chars r
  end.

(** [Object.keys(v)]; [None] when the call throws a TypeError. *)
Definition Object_keys (v : JsValue) : option (list string) :=
  match v with
  | JUndefined | JNull => None
  | JBoolean _ | JNumber _ => Some []
  | JString s => Some (map indexKey (seq 0 (String.length s)))
  | JArray elems => Some (map indexKey (seq 0 (length elems)))
  | JObject props => Some (map fst props)
  end.

(** [Object.values(v)]; [None] when the call throws a TypeError. *)
Definition Object_values (v : JsValue) : option (list JsValue) :=
  match v with
  | JUndefined | JNull => None
  | JBoolean _ | JNumber _ => Some []
  | JString s => Some (chars s)
  | JArray elems => Some elems
  | JObject props => Some (map snd props)
  end.

(** [o[k]] on the properties of a plain object. *)
Fixpoint getProp (props : list (string * JsValue)) (k : string) : JsValue :=
  match props with
  | [] => JUndefined
  | (k', v) :: rest => if String.eqb k' k then v else getProp rest k
  end.

(** [o[k] = v]: an existing key keeps its place. *)
Fixpoint setProp (props : list (string * JsValue)) (k : string) (v : JsValue)
  : list (string * JsValue) :=
  match props with
  | [] => [(k, v)]
  | (k', v') :: rest =>
      if String.eqb k' k then (k', v) :: rest else (k', v') :: setProp rest k v
  end.

(** [v[k]] where [v] is neither [null] nor [undefined]. *)
Definition getMember (v : JsValue) (k : string) : JsValue :=
  match v with
  | JObject props => getProp props k
  | _ => JUndefined
  end.

(** [v[k] = x] on an object. *)
Definition setMember (v : JsValue) (k : string) (x : JsValue) : JsValue :=
  match v with
  | JObject props => JObject (setProp props k x)
  | _ => v
  end.

(** [a === b] on primitives.  Arrays and objects compare by identity, which
    the values do not keep: they are never equal here. *)
Definition strictEquals (a b : JsValue) : bool :=
  match a, b with
  | JUndefined, JUndefined => true
  | JNull, JNull => true
  | JBoolean x, JBoolean y => Bool.eqb x y
  | JNumber x, JNumber y => PrimFloat.eqb x y
  | JString x, JString y => String.eqb x y
  | _, _ => false
  end.

(** [Object.fromEntries(entries)] *)
Definition Object_fromEntries (entries : list (string * JsValue)) : JsValue :=
  JObject (fold_left (fun o kv => setProp o kv.1 kv.2) entries []).

(** What the functions take from the JavaScript runtime and from the zod
    package: the string conversion of template literals, [JSON.parse]
    ([None] when it throws a SyntaxError) and the regular expression behind
    [z.string().email()]. *)
Class Runtime : Type := {
  ToString : JsValue -> string;
  JSON_parse : string -> option JsValue;
  emailRegex_test : string -> bool;
}.

End Js.

(** ** Helpers imported from [../utils] *)
Module Utils.
Import JsString Js.

(** Modelled from the spec: [capitalize] of [lib/utils], which is not among
    the sources.  In the spec an entity name is "case-normalized (first
    letter capitalized) before lookup", resolved "by trimming whitespace and
    capitalizing the first letter", and its resolution is
    "case-insensitive-then-capitalized", so that "entity names differing
    only in case/whitespace" resolve alike: the first code unit is
    upper-cased and the others are lower-cased.  The spec has no word on
    the empty string, which has no first letter; here it comes back as it
    is, and lines 37 and 38 then throw the TypeError that a [capitalize]
    reading [str[0]] itself raises as well. *)
Definition capitalize (str : string) : string :=
  match str with
  | EmptyString => EmptyString
  | String c r => String (toUpperCaseChar c) (toLowerCase r)
  end.

(** [arr.includes(x)] on an array of strings. *)
Definition Array_includes (arr : list string) (x : string) : bool :=
  existsb (String.eqb x) arr.

(** Modelled from the spec: [findOnlyUniqueElements] of [lib/utils], which is
    not among the sources.  The spec has the validator compute "the set of
    record keys not present in {schema fields} ∪ {identifier field}",
    "offending keys in input order": the elements of the first array that
    occur in none of the other arrays, in the order of the first array. *)
Definition findOnlyUniqueElements (arr : list string) (others : list (list string))
  : list string :=
  List.filter (fun x => negb (existsb (fun o => Array_includes o x) others)) arr.

(** Modelled from the spec: [isValidJSON] of [lib/utils], which is not among
    the sources.  The signup form carries the phone "encoded as a JSON string
    within one field" that "must be decoded before schema validation": the
    test holds of the strings [JSON.parse] accepts, and of no other value. *)
Definition isValidJSON `{Runtime} (val : JsValue) : bool :=
  match val with
  | JString s => bool_decide (is_Some (JSON_parse s))
  | _ => false
  end.

End Utils.

(** ** Asynchronous functions and their collaborators *)
Module Effects.
Import Js.

(** The spec's names for the places where the data-access layer builds an
    error.  The source builds all of them with [new Error(message)] and tells
    them apart by the message only; the embedding keeps the place next to the
    message. *)
Inductive ErrorKind : Type :=
| TypeMismatch
| UnknownEntity
| UnexpectedFields.

(** Values that are thrown, or returned as [instanceof Error]. *)
Inductive JsError : Type :=
| Error (kind : ErrorKind) (message : string)
    (** [new Error(message)] of [validatorOneDoc] *)
| TypeError (message : string)
    (** raised by the runtime, with the wording of V8 *)
| SyntaxError (message : string)
    (** raised by [JSON.parse] *)
| Rejected (reason : string)
    (** whatever a collaborator threw or rejected with *).

(** How a function call ends. *)
Inductive Outcome (A : Type) : Type :=
| Returns (a : A)
| Throws (e : JsError).
Arguments Returns {A} a.
Arguments Throws {A} e.

(** What a collaborator answers a call with: a value, or a rejection that
    the caller sees as the exception [Rejected reason]. *)
Inductive Answer (A : Type) : Type :=
| Yields (a : A)
| Rejects (reason : string).
Arguments Yields {A} a.
Arguments Rejects {A} reason.

Section Prog.
Context {action : Type} {result : action -> Type}.

(** An [async] function body: it returns, throws, or calls a collaborator
    and goes on with what the call comes back with. *)
Inductive Prog (R : Type) : Type :=
| Ret (r : R)
| Throw (e : JsError)
| Act (a : action) (k : Answer (result a) -> Prog R).
Arguments Ret {R} r.
Arguments Throw {R} e.
Arguments Act {R} a k.

Fixpoint bind {A B} (p : Prog A) (f : A -> Prog B) : Prog B :=
  match p with
  | Ret r => f r
  | Throw e => Throw e
  | Act a k => Act a (fun o => bind (k o) f)
  end.

(** [await a]: the rejection of the awaited call is thrown here. *)
Definition await (a : action) : Prog (result a) :=
  Act a (fun o => match o with Yields x => Ret x | Rejects r => Throw (Rejected r) end).

(** A call whose return value and failure the caller never looks at
    ([console.log], [console.error]). *)
Definition emit (a : action) : Prog unit :=
  Act a (fun _ => Ret tt).

(** [try { p } catch (error) { h error }] *)
Fixpoint try_catch {A} (p : Prog A) (h : JsError -> Prog A) : Prog A :=
  match p with
  | Ret r => Ret r
  | Throw e => h e
  | Act a k => Act a (fun o => try_catch (k o) h)
  end.

(** One call as it happened: the action and what came back. *)
Definition Event : Type := { a : action & Answer (result a) }.

Definition called (ev : Event) : action := projT1 ev.

(** The reason of a call that was rejected *)
Definition rejection (ev : Event) : option string :=
  match projT2 ev with
  | Rejects reason => Some reason
  | Yields _ => None
  end.

Section Run.
Context {St : Type} (handle : forall a : action, St -> Answer (result a) * St).

(** Runs a body against collaborators that answer by [handle], from their
    state [s]: the outcome, the calls in the order they were made, and the
    collaborators' final state. *)
Fixpoint run {R} (p : Prog R) (s : St) : Outcome R * list Event * St :=
  match p with
  | Ret r => (Returns r, [], s)
  | Throw e => (Throws e, [], s)
  | Act a k =>
      let '(o, s1) := handle a s in
      let '(res, evs, s2) := run (k o) s1 in
      (res, existT a o :: evs, s2)
  end.

End Run.
End Prog.

Arguments Prog action result R : clear implicits.
Arguments Event action result : clear implicits.
Arguments Ret {action result R} r.
Arguments Throw {action result R} e.
Arguments Act {action result R} a k.

Declare Scope prog_scope.
Delimit Scope prog_scope with prog.
Notation "x <- p ;; q" := (bind p (fun x => q))
  (at level 100, p at next level, right associativity) : prog_scope.
Notation "p ;;; q" := (bind p (fun _ => q))
  (at level 100, q at level 200, right associativity) : prog_scope.

End Effects.

(** ** [src/lib/db/createOperationDB.js] *)
Module CreateOperationDB.
Import JsString Js Utils Effects.

(** A registered mongoose model; [schema_obj] is [Model.schema.obj], the
    schema definition with its fields in the order they are declared. *)
Record Model : Type := {
  schema_obj : list (string * JsValue);
}.

(** A generated identifier; [toHexString] is what [id.toString()] gives. *)
Record ObjectId : Type := {
  toHexString : string;
}.

(** One operation of a bulk write: [{ insertOne: { document: doc } }]. *)
Inductive BulkOp : Type :=
| insertOne (document : JsValue).

(** The result of a [Model.bulkWrite] of [operations] inserts that went
    through; [insertedIds] is an object keyed by the index of the operation,
    kept as [Object.values] enumerates it, and it holds the identifier of
    every inserted document, one per operation. *)
Record BulkWriteResult (operations : nat) : Type := {
  insertedIds : list (nat * ObjectId);
  insertedIds_length : length insertedIds = operations;
}.
Arguments insertedIds {operations} _.
Arguments insertedIds_length {operations} _.

(** The calls the module makes to mongoose and to the console. *)
Inductive DbAction : Type :=
| Model_validate (modelName : string) (data : JsValue) (pathsToValidate : list string)
| Model_new (modelName : string) (data : JsValue)
| Document_save (doc : JsValue)
| Model_bulkWrite (modelName : string) (ops : list BulkOp)
| console_log (error : JsError).

Definition DbResult (a : DbAction) : Type :=
  match a with
  | Model_validate _ _ _ => unit
  | Model_new _ _ => JsValue
  | Document_save _ => JsValue
  | Model_bulkWrite _ ops => BulkWriteResult (length ops)
  | console_log _ => unit
  end.

(** The batch inserts and the validations among the calls *)
Definition isBulkWrite (a : DbAction) : bool :=
  match a with Model_bulkWrite _ _ => true | _ => false end.

Definition isValidate (a : DbAction) : bool :=
  match a with Model_validate _ _ _ => true | _ => false end.

Abbreviation DbProg := (Prog DbAction DbResult).
Local Abbreviation await := (@Effects.await DbAction DbResult).
Local Abbreviation emit := (@Effects.emit DbAction DbResult).

(** What [validatorOneDoc] resolves with: an [Error] value, or
    [{ modelName, data }]. *)
Inductive ValidatorResult : Type :=
| IsError (e : JsError)
| Validated (modelName : string) (data : JsValue).

Definition dquote : string := String (ascii_of_nat 34) EmptyString.

Section WithModels.
Context `{Runtime} (dataModels : gmap string Model).
Open Scope prog_scope.

(** The TypeError of [processedModelName[0].toUpperCase()] when
    [processedModelName[0]] is [undefined] *)
Definition toUpperCase_of_undefined : JsError :=
  TypeError "Cannot read properties of undefined (reading 'toUpperCase')".

(** Lines 36 to 38: the name under which the model is looked up *)
Definition processModelName (modelName : string) : DbProg string :=
  let processedModelName := capitalize (trim modelName) in
  match at0 processedModelName with
  | None => Throw toUpperCase_of_undefined
  | Some c0 =>
      Ret (toUpperCase (String c0 EmptyString) +:+ slice1 processedModelName)
  end.

Definition validatorOneDoc (modelName data : JsValue) : DbProg ValidatorResult :=
  match modelName with
  | JString name =>
      processedModelName <- processModelName name;;
      match dataModels !! processedModelName with
      | None =>
          Ret (IsError (Error UnknownEntity
                 (dquote +:+ processedModelName +:+ dquote +:+ " is not a valid model")))
      | Some model =>
          if negb (String.eqb (typeof data) "object") || isNull data || Array_isArray data
          then
            Ret (IsError (Error TypeMismatch
                   (ToString data +:+ " is not an object. data must be an object")))
          else
            let modelSchemaKeys := map fst (schema_obj model) in
            match Object_keys data with
            | None =>
                Throw (TypeError "Cannot convert undefined or null to object")
            | Some dataKeys =>
                let extraKeys :=
                  findOnlyUniqueElements dataKeys
                    [modelSchemaKeys ++ ["_id"]; modelSchemaKeys ++ ["_id"]] in
                if 0 <? length extraKeys then
                  Ret (IsError (Error UnexpectedFields
                         ("The following keys are not allowed: "
                          +:+ join ", " extraKeys
                          +:+ ", Only " +:+ join ", " modelSchemaKeys
                          +:+ " are allowed")))
                else
                  try_catch
                    (await (Model_validate processedModelName data modelSchemaKeys);;;
                     Ret (Validated processedModelName data))
                    (fun error => Ret (IsError error))
            end
      end
  | _ =>
      Ret (IsError (Error TypeMismatch
             (ToString modelName +:+ " is not a string. modelName must be a string")))
  end.

Definition createOneDoc (modelName data : JsValue) : DbProg JsValue :=
  result <- validatorOneDoc modelName data;;
  match result with
  | IsError e => Throw e
  | Validated modelName data =>
      try_catch
        (doc <- await (Model_new modelName data);;
         await (Document_save doc))
        (fun error => emit (console_log error);;; Throw error)
  end.

(** [modelName] and [dataArr] have the types of the JSDoc: a string and an
    array. *)
Definition createManyDocs (modelName : string) (dataArr : list JsValue)
  : DbProg (list string) :=
  let modelName := capitalize (trim modelName) in
  try_catch
    (let bulkOperations := map insertOne dataArr in
     match dataModels !! modelName with
     | None =>
         Throw (TypeError "Cannot read properties of undefined (reading 'bulkWrite')")
     | Some _ =>
         result <- await (Model_bulkWrite modelName bulkOperations);;
         Ret (map toHexString (map snd (insertedIds result)))
     end)
    (fun error => emit (console_log error);;; Throw error).

End WithModels.
End CreateOperationDB.

(** ** The part of zod 3 the signup schema is built from

    A schema parses an input at a path.  It reports issues and comes back
    [OK], [DIRTY] (a check failed, the value is still there) or [INVALID]
    (aborted: the input has the wrong type).  A transform of the source may
    throw, and the exception leaves [safeParse]. *)
Module Zod.
Import JsString Js Effects.

Record ZodIssue : Type := {
  path : list string;
  message : string;
}.

Inductive ParseReturn : Type :=
| OK (value : JsValue)
| DIRTY (value : JsValue)
| INVALID.

Definition ZodType : Type :=
  JsValue -> list string -> Outcome (ParseReturn * list ZodIssue).

(** [getParsedType(data)] *)
Definition getParsedType (data : JsValue) : string :=
  match data with
  | JUndefined => "undefined"
  | JNull => "null"
  | JBoolean _ => "boolean"
  | JNumber x => if PrimFloat.is_nan x then "nan" else "number"
  | JString _ => "string"
  | JArray _ => "array"
  | JObject _ => "object"
  end.

(** The [invalid_type] issue with the message of the default error map. *)
Definition invalid_type (expected : string) (data : JsValue) (path : list string)
  : ZodIssue :=
  {| path := path;
     message :=
       match data with
       | JUndefined => "Required"
       | _ => "Expected " +:+ expected +:+ ", received " +:+ getParsedType data
       end |}.

(** The checks of [z.string()] the schema uses. *)
Inductive ZodStringCheck : Type :=
| trim_
| min_ (value : nat) (message : string)
| email_ (message : string)
| regex_ (regex_test : string -> bool) (message : string).

(** The loop over [this._def.checks] of [ZodString._parse]: a failed check
    adds its issue and makes the status dirty, [trim] rewrites the data that
    the later checks and the output see. *)
Fixpoint runChecks `{Runtime} (checks : list ZodStringCheck) (data : string)
    (path : list string) : bool * string * list ZodIssue :=
  match checks with
  | [] => (false, data, [])
  | check :: rest =>
      let '(failed, data1, issue) :=
        match check with
        | trim_ => (false, trim data, [])
        | min_ value message =>
            (String.length data <? value, data, [{| path := path; message := message |}])
        | email_ message =>
            (negb (emailRegex_test data), data, [{| path := path; message := message |}])
        | regex_ regex_test message =>
            (negb (regex_test data), data, [{| path := path; message := message |}])
        end in
      let '(dirty, data2, issues) := runChecks rest data1 path in
      (failed || dirty, data2, (if failed then issue else []) ++ issues)
  end.

(** [ZodString._parse]: it never throws. *)
Definition parseString `{Runtime} (checks : list ZodStringCheck)
    (input : JsValue) (path : list string) : ParseReturn * list ZodIssue :=
  match input with
  | JString data =>
      let '(dirty, data, issues) := runChecks checks data path in
      (if dirty then DIRTY (JString data) else OK (JString data), issues)
  | _ => (INVALID, [invalid_type "string" input path])
  end.

(** [z.string()] followed by its checks *)
Definition z_string `{Runtime} (checks : list ZodStringCheck) : ZodType :=
  fun input path => Returns (parseString checks input path).

(** [schema.optional()] *)
Definition optional (schema : ZodType) : ZodType :=
  fun input path =>
    match input with
    | JUndefined => Returns (OK JUndefined, [])
    | _ => schema input path
    end.

(** [schema.transform(f)] *)
Definition transform (schema : ZodType) (f : JsValue -> Outcome JsValue) : ZodType :=
  fun input path =>
    match schema input path with
    | Returns (OK value, issues) =>
        match f value with
        | Returns result => Returns (OK result, issues)
        | Throws e => Throws e
        end
    | base => base
    end.

(** [in_.pipe(out)] *)
Definition pipe (in_ out : ZodType) : ZodType :=
  fun input path =>
    match in_ input path with
    | Returns (OK value, issues) =>
        match out value path with
        | Returns (r, issues') => Returns (r, issues ++ issues')
        | Throws e => Throws e
        end
    | Returns (DIRTY value, issues) => Returns (DIRTY value, issues)
    | Returns (INVALID, issues) => Returns (INVALID, issues)
    | Throws e => Throws e
    end.

(** [schema.refine(check, { message, path })] *)
Definition refine (schema : ZodType) (check : JsValue -> bool)
    (message : string) (issuePath : list string) : ZodType :=
  fun input path =>
    match schema input path with
    | Returns (INVALID, issues) => Returns (INVALID, issues)
    | Returns (OK value, issues) =>
        if check value then Returns (OK value, issues)
        else Returns (DIRTY value,
                      issues ++ [{| path := path ++ issuePath; message := message |}])
    | Returns (DIRTY value, issues) =>
        if check value then Returns (DIRTY value, issues)
        else Returns (DIRTY value,
                      issues ++ [{| path := path ++ issuePath; message := message |}])
    | Throws e => Throws e
    end.

(** [key in data] *)
Definition hasProp (props : list (string * JsValue)) (key : string) : bool :=
  existsb (fun kv => String.eqb kv.1 key) props.

(** The loop of [ZodObject._parse] over the keys of the shape: every key is
    parsed, in the order of the shape. *)
Fixpoint parseShape (shape : list (string * ZodType)) (data : list (string * JsValue))
    (path : list string)
  : Outcome (list (string * ParseReturn * bool) * list ZodIssue) :=
  match shape with
  | [] => Returns ([], [])
  | (key, keyValidator) :: rest =>
      match keyValidator (getProp data key) (path ++ [key]) with
      | Throws e => Throws e
      | Returns (value, issues) =>
          match parseShape rest data path with
          | Throws e => Throws e
          | Returns (pairs, issues') =>
              Returns ((key, value, hasProp data key) :: pairs, issues ++ issues')
          end
      end
  end.

(** [ParseStatus.mergeObjectSync]: one aborted value aborts the object. *)
Fixpoint mergeObjectSync (dirty : bool) (pairs : list (string * ParseReturn * bool))
    (finalObject : list (string * JsValue)) : ParseReturn :=
  match pairs with
  | [] => if dirty then DIRTY (JObject finalObject) else OK (JObject finalObject)
  | (key, value, alwaysSet) :: rest =>
      let set v :=
        match v with
        | JUndefined => if alwaysSet then setProp finalObject key v else finalObject
        | _ => setProp finalObject key v
        end in
      match value with
      | INVALID => INVALID
      | DIRTY v => mergeObjectSync true rest (set v)
      | OK v => mergeObjectSync dirty rest (set v)
      end
  end.

(** [z.object(shape)], which strips the keys that are not in the shape. *)
Definition z_object (shape : list (string * ZodType)) : ZodType :=
  fun input path =>
    match input with
    | JObject data =>
        match parseShape shape data path with
        | Throws e => Throws e
        | Returns (pairs, issues) => Returns (mergeObjectSync false pairs [], issues)
        end
    | _ => Returns (INVALID, [invalid_type "object" input path])
    end.

(** What [schema.safeParse(data)] returns. *)
Inductive SafeParseReturnType : Type :=
| SafeParseSuccess (data : JsValue)
| SafeParseError (issues : list ZodIssue).

Definition safeParse (schema : ZodType) (data : JsValue) : Outcome SafeParseReturnType :=
  match schema data [] with
  | Returns (OK value, _) => Returns (SafeParseSuccess value)
  | Returns (_, issues) => Returns (SafeParseError issues)
  | Throws e => Throws e
  end.

End Zod.

(** ** The signup server action *)
Module Signup.
Import JsString Js Utils Effects Zod.

(** The objects the action and the validation return: [{ success, error }],
    [{ success, data }] or [{ success, message }]; a key that is not set is
    [None]. *)
Record FormState : Type := {
  success : bool;
  error : option (gmap string string);
  data : option JsValue;
  message : option string;
}.

(** The calls the action makes to its collaborators: mongoose, bcrypt, the
    analytics and user services, the email template and sender, the
    console. *)
Inductive SignupAction : Type :=
| User_exists (filter : JsValue)
| bcrypt_hash (data : JsValue) (saltRounds : nat)
| createAnalytics
| createUser (userData : JsValue)
| createAccount (accountData : JsValue)
| incOrDecrementAnalytics (delta : JsValue)
| newUserSignupEmailTemplate (templateData : JsValue)
| sendEmail (recipients : JsValue) (subject : JsValue) (html : JsValue)
| console_error (label : string) (err : JsError).

Definition SignupResult (a : SignupAction) : Type :=
  match a with
  | console_error _ _ => unit
  | _ => JsValue
  end.

(** The steps of the side-effect sequence, in the order of the [try]
    block, and the step a call belongs to. *)
Inductive Step : Type :=
| AnalyticsCreation
| UserCreation
| AccountCreation
| CounterIncrement
| EmailRender
| EmailSend.

Definition sideEffectSequence : list Step :=
  [AnalyticsCreation; UserCreation; AccountCreation; CounterIncrement; EmailRender; EmailSend].

Definition stepOf (a : SignupAction) : option Step :=
  match a with
  | createAnalytics => Some AnalyticsCreation
  | createUser _ => Some UserCreation
  | createAccount _ => Some AccountCreation
  | incOrDecrementAnalytics _ => Some CounterIncrement
  | newUserSignupEmailTemplate _ => Some EmailRender
  | sendEmail _ _ _ => Some EmailSend
  | User_exists _ | bcrypt_hash _ _ | console_error _ _ => None
  end.

Abbreviation SignupProg := (Prog SignupAction SignupResult).
Local Abbreviation await := (@Effects.await SignupAction SignupResult).
Local Abbreviation emit := (@Effects.emit SignupAction SignupResult).

Section WithRuntime.
Context `{Runtime}.

(** Lines 121 to 130: the function given to [.transform] *)
Definition phoneTransform (val : JsValue) : Outcome JsValue :=
  let phone := JUndefined in
  if isValidJSON val then
    match JSON_parse (match val with JString s => s | _ => ToString val end) with
    | None => Throws (SyntaxError "Unexpected token")
    | Some p =>
        match Object_values p with
        | None => Throws (TypeError "Cannot convert undefined or null to object")
        | Some values => if existsb Boolean values then Returns p else Returns phone
        end
    end
  else Returns phone.

Definition phoneSchema : ZodType :=
  z_object
    [ ("number",
       z_string [trim_; regex_ test_digits "Invalid phone number. Only numbers are allowed"]);
      ("dialCode", z_string [trim_; min_ 1 "Dial code is required"]) ].

(** Lines 118 to 131: the schema of the [phone] key *)
Definition phoneField : ZodType :=
  pipe (transform (optional (z_string [])) phoneTransform) (optional phoneSchema).

(** The checks of the six text keys, lines 112 to 117 *)
Definition emailChecks : list ZodStringCheck :=
  [trim_; min_ 1 "Email is required"; email_ "Invalid email address"].
Definition passwordChecks : list ZodStringCheck :=
  [min_ 8 "Password must be at least 8 characters"].
Definition confirmPasswordChecks : list ZodStringCheck :=
  [min_ 1 "Confirm password is required"].
Definition firstnameChecks : list ZodStringCheck :=
  [trim_; min_ 1 "First name is required"].
Definition lastnameChecks : list ZodStringCheck :=
  [trim_; min_ 1 "Last name is required"].
Definition acceptTermsChecks : list ZodStringCheck :=
  [regex_ (includes "on") "You must accept the terms and conditions"].

(** The shape given to [z.object] at lines 111 to 132 *)
Definition signupShape : list (string * ZodType) :=
  [ ("email", z_string emailChecks);
    ("password", z_string passwordChecks);
    ("confirmPassword", z_string confirmPasswordChecks);
    ("firstname", z_string firstnameChecks);
    ("lastname", z_string lastnameChecks);
    ("acceptTerms", z_string acceptTermsChecks);
    ("phone", phoneField) ].

Definition signupSchema : ZodType :=
  refine (z_object signupShape)
    (fun data => strictEquals (getMember data "password") (getMember data "confirmPassword"))
    "Passwords do not match" ["confirmPassword"].

(** [issue.path[0]] used as a property key *)
Definition path0 (issue : ZodIssue) : string :=
  match path issue with
  | [] => "undefined"
  | key :: _ => key
  end.

(** The object the [forEach] of lines 143 to 145 fills *)
Definition collectErrors (issues : list ZodIssue) : gmap string string :=
  fold_left (fun errors issue => <[path0 issue := Zod.message issue]> errors) issues ∅.

Definition validateSignupFormData (formData : JsValue) : Outcome FormState :=
  match safeParse signupSchema formData with
  | Throws e => Throws e
  | Returns (SafeParseError issues) =>
      Returns {| success := false; error := Some (collectErrors issues);
                 data := None; message := None |}
  | Returns (SafeParseSuccess data) =>
      Returns {| success := true; error := None; data := Some data; message := None |}
  end.

Section WithEmailData.
(** [emailDefaultData] of [@/data/emailDefaultData], which the template is
    given along with the first name. *)
Context (emailDefaultData : list (string * JsValue)).
Open Scope prog_scope.

(** [const { _id: userId } = await createUser(...)]: on [null] and on
    [undefined] the runtime throws a TypeError that tells which of the two
    the value is. *)
Definition destructure_id (user : JsValue) : SignupProg JsValue :=
  match user with
  | JUndefined =>
      Throw (TypeError
        "Cannot destructure property '_id' of '(intermediate value)' as it is undefined.")
  | JNull =>
      Throw (TypeError
        "Cannot destructure property '_id' of '(intermediate value)' as it is null.")
  | _ => Ret (getMember user "_id")
  end.

(** Lines 64 to 96: the body of the [try] block *)
Definition signupSteps (data : JsValue) : SignupProg FormState :=
  await createAnalytics;;;
  user <- await (createUser (JObject
            [ ("firstName", getMember data "firstname");
              ("lastName", getMember data "lastname");
              ("email", getMember data "email");
              ("phone", getMember data "phone") ]));;
  userId <- destructure_id user;;
  await (createAccount (JObject
            [ ("userId", userId);
              ("provider", JString "credentials");
              ("providerAccountId", userId);
              ("type", JString "credentials");
              ("password", getMember data "password") ]));;;
  await (incOrDecrementAnalytics (JObject [("totalUsersSignedUp", JNumber 1%float)]));;;
  htmlEmail <- await (newUserSignupEmailTemplate (JObject
                 (setProp emailDefaultData "main"
                    (JObject [("firstName", getMember data "firstname")]))));;
  await (sendEmail (JArray [JObject [("Email", getMember data "email")]])
           (JString "Welcome to Golobe") htmlEmail);;;
  Ret {| success := true; error := None; data := None;
         message := Some "User created successfully" |}.

(** [signUpAction(prevState, formData)]; [formData] is given by its entries,
    and [None] is the [undefined] of a body that ends without [return]. *)
Definition signUpAction (prevState : JsValue) (formData : list (string * JsValue))
  : SignupProg (option FormState) :=
  match validateSignupFormData (Object_fromEntries formData) with
  | Throws e => Throw e
  | Returns signUpValidation =>
      if bool_decide (is_Some (error signUpValidation)) then
        Ret (Some signUpValidation)
      else if success signUpValidation then
        match data signUpValidation with
        | None => Throw (TypeError "Cannot read properties of undefined (reading 'email')")
        | Some data =>
            isUserExist <- await (User_exists (JObject [("email", getMember data "email")]));;
            if Boolean isUserExist then
              Ret (Some {| success := false;
                           error := Some {[ "email" := "User already exists" ]};
                           data := None; message := None |})
            else
              passwordHash <- await (bcrypt_hash (getMember data "password") 10);;
              let data := setMember data "password" passwordHash in
              try_catch
                (result <- signupSteps data;; Ret (Some result))
                (fun err =>
                   emit (console_error "Signup error:" err);;;
                   Ret (Some {| success := false; error := None; data := None;
                                message := Some "Something went wrong, try again" |}))
        end
      else Ret None
  end.

End WithEmailData.
End WithRuntime.

(** The six text inputs of the form hold strings. *)
Definition textFields (props : list (string * JsValue))
    (email password confirmPassword firstname lastname acceptTerms : string) : Prop :=
  getProp props "email" = JString email /\
  getProp props "password" = JString password /\
  getProp props "confirmPassword" = JString confirmPassword /\
  getProp props "firstname" = JString firstname /\
  getProp props "lastname" = JString lastname /\
  getProp props "acceptTerms" = JString acceptTerms.

Definition termsMessage : string := "You must accept the terms and conditions".

(** The result of a validation that passed *)
Definition passed (d : JsValue) : FormState :=
  {| success := true; error := None; data := Some d; message := None |}.

Definition duplicateFailure : FormState :=
  {| success := false; error := Some {[ "email" := "User already exists" ]};
     data := None; message := None |}.

Definition genericFailure : FormState :=
  {| success := false; error := None; data := None;
     message := Some "Something went wrong, try again" |}.

End Signup.

(** ** Fixtures of the closed examples *)
Module Fixtures.
Import JsString Js Utils Effects.

(** A runtime for the examples.  [ToString] is the ECMAScript conversion on
    [undefined], [null], booleans, strings and plain objects, [JSON.parse]
    reads the two texts the examples decode, and the email test looks for
    an at sign. *)
Definition exampleRuntime : Runtime := {|
  ToString v :=
    match v with
    | JUndefined => "undefined"
    | JNull => "null"
    | JBoolean true => "true"
    | JBoolean false => "false"
    | JString s => s
    | _ => "[object Object]"
    end;
  JSON_parse s :=
    if String.eqb s "{}" then Some (JObject [])
    else if String.eqb s "null" then Some JNull
    else None;
  emailRegex_test := includes "@";
|}.

(** Collaborators that reject every call. *)
Definition rejecting {action : Type} {result : action -> Type}
    (a : action) (s : unit) : Answer (result a) * unit :=
  (Rejects "unavailable", s).

Import CreateOperationDB.

Definition bookingModels : gmap string Model :=
  {[ "Booking" := {| schema_obj := [("userId", JNull); ("total", JNull)] |} ]}.

(** The identifiers [65a1], [65a2], ... of a batch, one per operation *)
Definition reportIds (ops : list BulkOp) : BulkWriteResult (length ops) :=
  {| insertedIds :=
       map (fun i => (i, {| toHexString := "65a" +:+ indexKey (S i) |}))
         (seq 0 (length ops));
     insertedIds_length :=
       eq_trans (List.length_map _ _) (List.length_seq (length ops) 0) |}.

(** A storage that inserts every batch and rejects every other call. *)
Definition inserting (a : DbAction) (s : unit) : Answer (DbResult a) * unit :=
  match a with
  | Model_bulkWrite _ ops => (Yields (reportIds ops), s)
  | _ => (Rejects "unavailable", s)
  end.

(** A storage that accepts every document and returns it as it is. *)
Definition accepting (a : DbAction) (s : unit) : Answer (DbResult a) * unit :=
  match a with
  | Model_validate _ _ _ => (Yields tt, s)
  | Model_new _ data => (Yields data, s)
  | Document_save doc => (Yields doc, s)
  | Model_bulkWrite _ ops => (Yields (reportIds ops), s)
  | console_log _ => (Yields tt, s)
  end.

Import Signup.

(** The entries of a form: the six text inputs, then the entries given. *)
Definition entries (password confirmPassword : string) (more : list (string * JsValue))
  : list (string * JsValue) :=
  [ ("email", JString "ann@example.org"); ("password", JString password);
    ("confirmPassword", JString confirmPassword); ("firstname", JString "Ann");
    ("lastname", JString "Lee") ] ++ more.

(** What the validation makes of [entries pw pw [("acceptTerms", "on")]] *)
Definition annData (password : string) : JsValue :=
  JObject [ ("email", JString "ann@example.org"); ("password", JString password);
            ("confirmPassword", JString password); ("firstname", JString "Ann");
            ("lastname", JString "Lee"); ("acceptTerms", JString "on") ].

(** Collaborators that know every email already. *)
Definition userKnown (a : SignupAction) (s : unit) : Answer (SignupResult a) * unit :=
  match a with
  | User_exists _ => (Yields (JObject [("_id", JString "65a0")]), s)
  | _ => (Rejects "unavailable", s)
  end.

(** Collaborators that know no email and reject the creation of the
    account. *)
Definition accountFails (a : SignupAction) (s : unit) : Answer (SignupResult a) * unit :=
  match a with
  | User_exists _ => (Yields JNull, s)
  | bcrypt_hash _ _ => (Yields (JString "$2b$10$hash"), s)
  | createUser _ => (Yields (JObject [("_id", JString "65a1")]), s)
  | createAccount _ => (Rejects "E11000 duplicate key", s)
  | console_error _ _ => (Yields tt, s)
  | _ => (Yields JUndefined, s)
  end.

End Fixtures.

(** ** Kinds of calls *)
Module Calls.
Import JsString Js Utils Effects CreateOperationDB.

(** The calls of the data-access layer that write to the storage *)
Definition isWrite (a : DbAction) : bool :=
  match a with
  | Model_new _ _ | Document_save _ | Model_bulkWrite _ _ => true
  | Model_validate _ _ _ | console_log _ => false
  end.

Definition isLog (a : DbAction) : bool :=
  match a with console_log _ => true | _ => false end.

Import Signup.

(** The value a call of the signup action came back with *)
Definition yielded (ev : Event SignupAction SignupResult) : option JsValue :=
  match ev with
  | existT a o =>
      match a return Answer (SignupResult a) -> option JsValue with
      | console_error _ _ => fun _ => None
      | _ => fun o => match o with Yields v => Some v | Rejects _ => None end
      end o
  end.

(** The failure the validation returns with its error object *)
Definition invalid (errors : gmap string string) : FormState :=
  {| success := false; error := Some errors; data := None; message := None |}.

Definition created : FormState :=
  {| success := true; error := None; data := None;
     message := Some "User created successfully" |}.

End Calls.

(** ** Further fixtures *)
Module MoreFixtures.
Import JsString Js Utils Effects CreateOperationDB Signup Fixtures.

(** A storage that validates and constructs, and rejects every save. *)
Definition saveFails (a : DbAction) (s : unit) : Answer (DbResult a) * unit :=
  match a with
  | Model_validate _ _ _ => (Yields tt, s)
  | Model_new _ data => (Yields data, s)
  | Document_save _ => (Rejects "E11000 duplicate key", s)
  | Model_bulkWrite _ _ => (Rejects "unavailable", s)
  | console_log _ => (Yields tt, s)
  end.

(** A storage whose validation rejects every record. *)
Definition validationFails (a : DbAction) (s : unit) : Answer (DbResult a) * unit :=
  match a with
  | Model_validate _ _ _ => (Rejects "Path `userId` is required.", s)
  | console_log _ => (Yields tt, s)
  | _ => (Rejects "unavailable", s)
  end.

(** Collaborators that know no email and answer every call; the new user
    has the identifier [65a1]. *)
Definition allAnswer (a : SignupAction) (s : unit) : Answer (SignupResult a) * unit :=
  match a with
  | User_exists _ => (Yields JNull, s)
  | bcrypt_hash _ _ => (Yields (JString "$2b$10$hash"), s)
  | createUser _ => (Yields (JObject [("_id", JString "65a1")]), s)
  | newUserSignupEmailTemplate _ => (Yields (JString "<html>"), s)
  | console_error _ _ => (Yields tt, s)
  | _ => (Yields JUndefined, s)
  end.

(** Collaborators whose creation of the user comes back with [null]. *)
Definition nullUser (a : SignupAction) (s : unit) : Answer (SignupResult a) * unit :=
  match a with
  | User_exists _ => (Yields JNull, s)
  | bcrypt_hash _ _ => (Yields (JString "$2b$10$hash"), s)
  | createUser _ => (Yields JNull, s)
  | console_error _ _ => (Yields tt, s)
  | _ => (Yields JUndefined, s)
  end.

(** Collaborators that know no email and reject the hashing. *)
Definition hashFails (a : SignupAction) (s : unit) : Answer (SignupResult a) * unit :=
  match a with
  | User_exists _ => (Yields JNull, s)
  | console_error _ _ => (Yields tt, s)
  | _ => (Rejects "unavailable", s)
  end.

(** The form of Ann with the terms ticked *)
Definition annEntries : list (string * JsValue) :=
  entries "password1" "password1" [("acceptTerms", JString "on")].

End MoreFixtures.

(** * Properties *)

Import JsString Js Utils Effects.

(** ** Strings *)
Section StringFacts.

Lemma trimStart_white (w : string) :
  allWhiteSpace w = true -> trimStart w = EmptyString.
Proof.
  induction w as [|c w IH]; simpl; [reflexivity|].
  intros [Hc Hw]%andb_prop. rewrite Hc. auto.
Qed.

Lemma trimEnd_white (w : string) :
  allWhiteSpace w = true -> trimEnd w = EmptyString.
Proof.
  induction w as [|c w IH]; simpl; [reflexivity|].
  intros [Hc Hw]%andb_prop. rewrite (IH Hw), Hc. reflexivity.
Qed.

Lemma trim_white (w : string) :
  allWhiteSpace w = true -> trim w = EmptyString.
Proof. intros Hw. unfold trim. rewrite (trimStart_white _ Hw). reflexivity. Qed.

Lemma trimStart_app_white (w s : string) :
  allWhiteSpace w = true -> trimStart (w +:+ s) = trimStart s.
Proof.
  induction w as [|c w IH]; simpl; [reflexivity|].
  intros [Hc Hw]%andb_prop. rewrite Hc. auto.
Qed.

Lemma trimEnd_app_white (s w : string) :
  allWhiteSpace w = true -> trimEnd (s +:+ w) = trimEnd s.
Proof.
  intros Hw. induction s as [|c s IH]; simpl.
  - apply trimEnd_white, Hw.
  - rewrite IH. reflexivity.
Qed.

Lemma trimEnd_cons (c : ascii) (r : string) :
  isWhiteSpace c = false -> trimEnd (String c r) = String c (trimEnd r).
Proof. intros Hc. cbn [trimEnd]. destruct (trimEnd r); [rewrite Hc|]; reflexivity. Qed.

Lemma trimEnd_idem (s : string) : trimEnd (trimEnd s) = trimEnd s.
Proof.
  induction s as [|c s IH]; simpl; [reflexivity|].
  destruct (trimEnd s) as [|d t] eqn:E.
  - destruct (isWhiteSpace c) eqn:Hc; simpl; [reflexivity|]. rewrite Hc. reflexivity.
  - change (trimEnd (String c (String d t)) = String c (String d t)).
    cbn [trimEnd] in *. rewrite IH. reflexivity.
Qed.

(** The trimmed core of a padded name *)
Lemma trim_padded (w1 w2 : string) (c : ascii) (r : string) :
  allWhiteSpace w1 = true -> allWhiteSpace w2 = true -> isWhiteSpace c = false ->
  trim (w1 +:+ String c r +:+ w2) = String c (trimEnd r).
Proof.
  intros H1 H2 Hc. unfold trim.
  rewrite trimStart_app_white by assumption.
  change (String c r +:+ w2) with (String c (r +:+ w2)).
  cbn [trimStart]. rewrite Hc.
  rewrite <- (trimEnd_app_white r w2 H2). apply trimEnd_cons, Hc.
Qed.

Lemma toUpperCaseChar_idem (c : ascii) :
  toUpperCaseChar (toUpperCaseChar c) = toUpperCaseChar c.
Proof. destruct c as [[] [] [] [] [] [] [] []]; reflexivity. Qed.

Lemma toUpperCaseChar_not_white (c : ascii) :
  isWhiteSpace c = false -> isWhiteSpace (toUpperCaseChar c) = false.
Proof. destruct c as [[] [] [] [] [] [] [] []]; intros Hc; try reflexivity; discriminate Hc. Qed.

(** A trimmed string that is not empty starts with a character that is not
    white space, and trimming it again changes nothing. *)
Lemma trim_head (s : string) (c : ascii) (r : string) :
  trim s = String c r -> isWhiteSpace c = false /\ trimEnd r = r.
Proof.
  unfold trim. induction s as [|d s IH]; simpl; [discriminate|].
  destruct (isWhiteSpace d) eqn:Hd; [exact IH|].
  intros E. pose proof (trimEnd_idem (String d s)) as Hi.
  rewrite trimEnd_cons in Hi by assumption.
  rewrite trimEnd_cons in E by assumption.
  injection E as -> <-. split; [assumption|].
  rewrite trimEnd_cons in Hi by assumption. injection Hi as Hi. exact Hi.
Qed.

Lemma append_one (c : ascii) (r : string) : String c EmptyString +:+ r = String c r.
Proof. reflexivity. Qed.

Lemma includes_spec (pat s : string) :
  includes pat s = true <-> exists pre post, s = pre +:+ pat +:+ post.
Proof.
  assert (Hprefix : forall p t, String.prefix p t = true <-> exists post, t = p +:+ post).
  { induction p as [|a p IH]; intros [|b t]; simpl.
    - split; [intros _; exists EmptyString; reflexivity | reflexivity].
    - split; [intros _; exists (String b t); reflexivity | reflexivity].
    - split; [discriminate | intros [post E]; discriminate E].
    - destruct (Ascii.ascii_dec a b) as [->|Hne].
      + rewrite IH. split; intros [post E]; exists post; [now rewrite E | now injection E].
      + split; [discriminate | intros [post E]; injection E as E1 E2; congruence]. }
  induction s as [|c s IH]; cbn [includes].
  - rewrite orb_false_r, Hprefix. split.
    + intros [post E]. exists EmptyString, post. exact E.
    + intros [[|a pre] [post E]]; [exists post; exact E | discriminate E].
  - rewrite orb_true_iff, Hprefix, IH. split.
    + intros [[post E] | (pre & post & E)].
      * exists EmptyString, post. exact E.
      * exists (String c pre), post. simpl. now rewrite E.
    + intros [[|a pre] [post E]].
      * left. exists post. exact E.
      * right. exists pre, post. simpl in E. now injection E.
Qed.

Lemma isWhiteSpace_toLowerCaseChar (c : ascii) :
  isWhiteSpace (toLowerCaseChar c) = isWhiteSpace c.
Proof. destruct c as [[] [] [] [] [] [] [] []]; reflexivity. Qed.

Lemma toUpperCaseChar_toLowerCaseChar (c : ascii) :
  toUpperCaseChar (toLowerCaseChar c) = toUpperCaseChar c.
Proof. destruct c as [[] [] [] [] [] [] [] []]; reflexivity. Qed.

Lemma toLowerCaseChar_idem (c : ascii) :
  toLowerCaseChar (toLowerCaseChar c) = toLowerCaseChar c.
Proof. destruct c as [[] [] [] [] [] [] [] []]; reflexivity. Qed.

Lemma toLowerCase_idem (s : string) : toLowerCase (toLowerCase s) = toLowerCase s.
Proof.
  induction s as [|c s IH]; cbn [toLowerCase]; [reflexivity|].
  now rewrite toLowerCaseChar_idem, IH.
Qed.

(** Trimming and lower-casing commute: a white space has no case. *)
Lemma trimStart_toLowerCase (s : string) :
  trimStart (toLowerCase s) = toLowerCase (trimStart s).
Proof.
  induction s as [|c s IH]; cbn [toLowerCase trimStart]; [reflexivity|].
  rewrite isWhiteSpace_toLowerCaseChar. destruct (isWhiteSpace c); [exact IH | reflexivity].
Qed.

Lemma trimEnd_toLowerCase (s : string) :
  trimEnd (toLowerCase s) = toLowerCase (trimEnd s).
Proof.
  induction s as [|c s IH]; cbn [toLowerCase trimEnd]; [reflexivity|].
  rewrite IH, isWhiteSpace_toLowerCaseChar.
  destruct (trimEnd s); cbn [toLowerCase]; [destruct (isWhiteSpace c)|]; reflexivity.
Qed.

Lemma trim_toLowerCase (s : string) : trim (toLowerCase s) = toLowerCase (trim s).
Proof. unfold trim. now rewrite trimStart_toLowerCase, trimEnd_toLowerCase. Qed.

(** The white space around a string does not count. *)
Lemma trim_app_white_r (s w : string) : allWhiteSpace w = true -> trim (s +:+ w) = trim s.
Proof.
  intros Hw. unfold trim. induction s as [|c s IH].
  - change (EmptyString +:+ w) with w. now rewrite (trimStart_white _ Hw).
  - change (String c s +:+ w) with (String c (s +:+ w)). cbn [trimStart].
    destruct (isWhiteSpace c); [exact IH|].
    change (String c (s +:+ w)) with (String c s +:+ w). now apply trimEnd_app_white.
Qed.

Lemma trim_app_white (w1 s w2 : string) :
  allWhiteSpace w1 = true -> allWhiteSpace w2 = true -> trim (w1 +:+ s +:+ w2) = trim s.
Proof.
  intros H1 H2. rewrite <- (trim_app_white_r s w2 H2). unfold trim.
  now rewrite trimStart_app_white.
Qed.

End StringFacts.

(** ** The definitions on a few inputs *)
Section Evaluations.
Import CreateOperationDB Fixtures.

Example trim_name : trim "  hotel booking  " = "hotel booking".
Proof. reflexivity. Qed.

Example capitalize_name :
  capitalize "hotel" = "Hotel" /\ capitalize "HOTEL" = "Hotel" /\
  capitalize "hOTEL" = "Hotel".
Proof. repeat split. Qed.

Example includes_on :
  includes "on" "on" = true /\ includes "on" "monday" = true /\
  includes "on" "none" = true /\ includes "on" "off" = false /\
  includes "on" "ON" = false.
Proof. repeat split. Qed.

Example test_digits_phone :
  test_digits "01712345678" = true /\ test_digits "+880" = false /\
  test_digits EmptyString = false.
Proof. repeat split. Qed.

Example fromEntries_repeated_name :
  Object_fromEntries [("a", JNull); ("b", JNull); ("a", JBoolean true)]
  = JObject [("a", JBoolean true); ("b", JNull)].
Proof. reflexivity. Qed.

Example findOnlyUniqueElements_keys :
  findOnlyUniqueElements ["x"; "total"; "_id"; "y"]
    [["userId"; "total"; "_id"]; ["userId"; "total"; "_id"]]
  = ["x"; "y"].
Proof. reflexivity. Qed.

Example createOneDoc_booking :
  run accepting
    (createOneDoc (H:=exampleRuntime) bookingModels (JString " booking")
       (JObject [("total", JNull)])) tt
  = (Returns (JObject [("total", JNull)]),
     [ existT (Model_validate "Booking" (JObject [("total", JNull)]) ["userId"; "total"])
         (Yields tt);
       existT (Model_new "Booking" (JObject [("total", JNull)]))
         (Yields (JObject [("total", JNull)]));
       existT (Document_save (JObject [("total", JNull)]))
         (Yields (JObject [("total", JNull)])) ],
     tt).
Proof. reflexivity. Qed.

End Evaluations.

(** ** [validatorOneDoc], [createOneDoc], [createManyDocs] *)
Section CreateOperationDBFacts.
Import CreateOperationDB.
Context `{Runtime} (dataModels : gmap string Model).

Lemma processModelName_blank (name : string) :
  allWhiteSpace name = true -> processModelName name = Throw toUpperCase_of_undefined.
Proof.
  intros Hw. unfold processModelName. rewrite (trim_white _ Hw). reflexivity.
Qed.

(** The normal form of a name, from its trimmed form *)
Lemma processModelName_trimmed (name : string) :
  processModelName name
  = match trim name with
    | EmptyString => Throw toUpperCase_of_undefined
    | String c r => Ret (String (toUpperCaseChar c) (toLowerCase r))
    end.
Proof.
  unfold processModelName. destruct (trim name) as [|c r]; [reflexivity|].
  cbn [capitalize at0 slice1 toUpperCase].
  now rewrite append_one, toUpperCaseChar_idem.
Qed.

Lemma processModelName_same_case (a b : string) :
  toLowerCase (trim a) = toLowerCase (trim b) ->
  processModelName a = processModelName b.
Proof.
  rewrite !processModelName_trimmed.
  destruct (trim a) as [|c r], (trim b) as [|c' r']; cbn [toLowerCase];
    try discriminate; [reflexivity|].
  intros [= Hc Hr].
  rewrite <- (toUpperCaseChar_toLowerCaseChar c), Hc, toUpperCaseChar_toLowerCaseChar.
  now rewrite Hr.
Qed.

Lemma processModelName_idem (name n : string) :
  processModelName name = Ret n -> processModelName n = Ret n.
Proof.
  rewrite processModelName_trimmed.
  destruct (trim name) as [|c r] eqn:E; [discriminate|].
  intros [= <-]. destruct (trim_head _ _ _ E) as [Hc Hr].
  rewrite processModelName_trimmed.
  assert (Ht : trim (String (toUpperCaseChar c) (toLowerCase r))
               = String (toUpperCaseChar c) (toLowerCase r)).
  { unfold trim. cbn [trimStart]. rewrite (toUpperCaseChar_not_white _ Hc).
    rewrite trimEnd_cons by (apply toUpperCaseChar_not_white, Hc).
    now rewrite trimEnd_toLowerCase, Hr. }
  rewrite Ht. now rewrite toUpperCaseChar_idem, toLowerCase_idem.
Qed.

(** C10: a name that is empty or all white space makes [validatorOneDoc]
    throw the TypeError of reading [toUpperCase] of [undefined]; it never
    comes back with the [is not a valid model] error value, and
    [createOneDoc] throws the same TypeError before it calls anything. *)
Theorem createOneDoc_blank_name_throws (name : string) (data : JsValue) :
  allWhiteSpace name = true ->
  validatorOneDoc dataModels (JString name) data = Throw toUpperCase_of_undefined /\
  (forall message,
     validatorOneDoc dataModels (JString name) data
     <> Ret (IsError (Error UnknownEntity message))) /\
  (forall (St : Type) (handle : forall a, St -> Answer (DbResult a) * St) (s : St),
     run handle (createOneDoc dataModels (JString name) data) s
     = (Throws toUpperCase_of_undefined, [], s)).
Proof.
  intros Hw.
  assert (E : validatorOneDoc dataModels (JString name) data
              = Throw toUpperCase_of_undefined).
  { unfold validatorOneDoc. rewrite (processModelName_blank _ Hw). reflexivity. }
  split; [exact E|]. split.
  - intros message. rewrite E. discriminate.
  - intros St handle s. unfold createOneDoc. rewrite E. reflexivity.
Qed.

(** The validator on a name whose normal form is known *)
Lemma validatorOneDoc_resolved (name n : string) (data : JsValue) :
  processModelName name = Ret n ->
  validatorOneDoc dataModels (JString name) data
  = validatorOneDoc dataModels (JString n) data.
Proof.
  intros E. unfold validatorOneDoc.
  rewrite (processModelName_idem _ _ E), E. reflexivity.
Qed.

(** C4: two names that differ only in letter case and in the white space
    around them have the same normal form, so the lookup resolves both to
    the same schema and [validatorOneDoc] does the same on both; the normal
    form is its own normal form. *)
Theorem processModelName_case_and_padding
    (wa1 wa2 wb1 wb2 ca cb : string) (data : JsValue) :
  allWhiteSpace wa1 = true -> allWhiteSpace wa2 = true ->
  allWhiteSpace wb1 = true -> allWhiteSpace wb2 = true ->
  toLowerCase ca = toLowerCase cb ->
  let a := wa1 +:+ ca +:+ wa2 in
  let b := wb1 +:+ cb +:+ wb2 in
  processModelName a = processModelName b /\
  (forall n, processModelName a = Ret n ->
     processModelName b = Ret n /\ processModelName n = Ret n /\
     validatorOneDoc dataModels (JString n) data
     = validatorOneDoc dataModels (JString a) data) /\
  validatorOneDoc dataModels (JString a) data
  = validatorOneDoc dataModels (JString b) data.
Proof.
  intros Ha1 Ha2 Hb1 Hb2 Hcase a b.
  assert (Hab : processModelName a = processModelName b).
  { apply processModelName_same_case. subst a b.
    rewrite !trim_app_white by assumption.
    now rewrite <- !trim_toLowerCase, Hcase. }
  split; [exact Hab|]. split.
  - intros n En. split; [now rewrite <- Hab|].
    split; [exact (processModelName_idem _ _ En)|].
    symmetry. apply validatorOneDoc_resolved, En.
  - unfold validatorOneDoc. now rewrite Hab.
Qed.

Lemma findOnlyUniqueElements_twice (keys allowed : list string) :
  findOnlyUniqueElements keys [allowed; allowed]
  = List.filter (fun k => negb (Array_includes allowed k)) keys.
Proof.
  unfold findOnlyUniqueElements. apply List.filter_ext. intros k. cbn.
  now rewrite orb_false_r, orb_diag.
Qed.

(** C1: for a name that resolves and a plain object, the keys that are
    neither schema fields nor [_id] are reported, in the order of the
    record, before the schema fields in the order of their declaration; when
    there is no such key the only error values are what [Model.validate]
    rejects with. *)
Theorem validatorOneDoc_unexpected_fields
    (name n : string) (model : Model) (props : list (string * JsValue)) :
  processModelName name = Ret n ->
  dataModels !! n = Some model ->
  let modelSchemaKeys := map fst (schema_obj model) in
  let offending :=
    List.filter (fun k => negb (Array_includes (modelSchemaKeys ++ ["_id"]) k))
      (map fst props) in
  (offending <> [] ->
   validatorOneDoc dataModels (JString name) (JObject props)
   = Ret (IsError (Error UnexpectedFields
            ("The following keys are not allowed: " +:+ join ", " offending
             +:+ ", Only " +:+ join ", " modelSchemaKeys +:+ " are allowed")))) /\
  (offending = [] ->
   forall (St : Type) (handle : forall a, St -> Answer (DbResult a) * St) (s : St) e,
     (run handle (validatorOneDoc dataModels (JString name) (JObject props)) s).1.1
     = Returns (IsError e) ->
     (exists reason, e = Rejected reason) /\
     forall message, e <> Error UnexpectedFields message).
Proof.
  intros En Hm modelSchemaKeys offending.
  unfold validatorOneDoc. rewrite En. cbn [bind]. rewrite Hm.
  cbn [typeof isNull Array_isArray String.eqb Ascii.eqb Bool.eqb negb orb Object_keys].
  rewrite findOnlyUniqueElements_twice.
  fold modelSchemaKeys. fold offending. split.
  - intros Hne. destruct offending as [|k rest]; [congruence|]. reflexivity.
  - intros ->. cbn [length Nat.ltb Nat.leb]. intros St handle s e.
    cbn. destruct (handle _ s) as [[[]|reason] s1]; cbn.
    + discriminate.
    + intros [= <-]. split; [eauto | discriminate].
Qed.

(** C2, amended: a name that is not a string is a type mismatch; for a
    string name that resolves, a record that is not an object, is [null] or
    is an array is a type mismatch; a string name that has a normal form and
    does not resolve is an unknown entity whatever the record is, and this
    is the only way to the unknown-entity error. *)
Theorem validatorOneDoc_type_mismatch (modelName data : JsValue) :
  (typeof modelName <> "string" ->
   validatorOneDoc dataModels modelName data
   = Ret (IsError (Error TypeMismatch
            (ToString modelName +:+ " is not a string. modelName must be a string")))) /\
  (forall name n model,
     modelName = JString name -> processModelName name = Ret n ->
     dataModels !! n = Some model ->
     typeof data <> "object" \/ data = JNull \/ Array_isArray data = true ->
     validatorOneDoc dataModels modelName data
     = Ret (IsError (Error TypeMismatch
              (ToString data +:+ " is not an object. data must be an object")))) /\
  (forall name n,
     modelName = JString name -> processModelName name = Ret n ->
     dataModels !! n = None ->
     validatorOneDoc dataModels modelName data
     = Ret (IsError (Error UnknownEntity
              (dquote +:+ n +:+ dquote +:+ " is not a valid model")))) /\
  (forall (St : Type) (handle : forall a, St -> Answer (DbResult a) * St) (s : St) message,
     (run handle (validatorOneDoc dataModels modelName data) s).1.1
     = Returns (IsError (Error UnknownEntity message)) ->
     exists name n,
       modelName = JString name /\ processModelName name = Ret n /\
       dataModels !! n = None).
Proof.
  repeat split.
  - intros Hty. destruct modelName; try reflexivity. now contradiction Hty.
  - intros name n model -> En Hm Hdata. unfold validatorOneDoc.
    rewrite En. cbn [bind]. rewrite Hm.
    destruct data; try reflexivity; destruct Hdata as [Hd | [Hd | Hd]];
      solve [ now contradiction Hd | discriminate Hd ].
  - intros name n -> En Hm. unfold validatorOneDoc.
    rewrite En. cbn [bind]. rewrite Hm. reflexivity.
  - intros St handle s message. unfold validatorOneDoc.
    destruct modelName as [| | | |name| |]; try (cbn; discriminate).
    destruct (processModelName name) as [n|e|a k] eqn:En; cbn [bind].
    + destruct (dataModels !! n) as [model|] eqn:Hm.
      * intros Hrun. exfalso. revert Hrun.
        destruct (_ || _); [cbn; discriminate|].
        destruct (Object_keys data); [|cbn; discriminate].
        destruct (_ <? _); [cbn; discriminate|].
        cbn. destruct (handle _ s) as [[[]|reason] s1]; cbn; discriminate.
      * intros _. exists name, n. auto.
    + cbn. discriminate.
    + unfold processModelName in En. destruct (at0 _); discriminate En.
Qed.

(** C3, amended: for a name that resolves, [createManyDocs] validates
    nothing and makes exactly one batch insert, of one [insertOne] per
    record in the order of the input; when the insert succeeds the result is
    the reported identifiers as strings in the reported order, one for each
    record; when it is rejected the rejection is logged and thrown again. *)
Theorem createManyDocs_one_batch
    (modelName : string) (dataArr : list JsValue) (model : Model)
    (St : Type) (handle : forall a, St -> Answer (DbResult a) * St) (s : St) :
  dataModels !! capitalize (trim modelName) = Some model ->
  let batch := Model_bulkWrite (capitalize (trim modelName)) (map insertOne dataArr) in
  let '(res, evs, _) := run handle (createManyDocs dataModels modelName dataArr) s in
  let calls := map called evs in
  List.filter isValidate calls = [] /\
  List.filter isBulkWrite calls = [batch] /\
  match (handle batch s).1 with
  | Yields result =>
      res = Returns (map toHexString (map snd (insertedIds result))) /\
      calls = [batch] /\
      exists ids, res = Returns ids /\ length ids = length dataArr
  | Rejects reason =>
      res = Throws (Rejected reason) /\
      calls = [batch; console_log (Rejected reason)]
  end.
Proof.
  intros Hm batch. unfold createManyDocs. rewrite Hm. cbn.
  fold batch. destruct (handle batch s) as [[result|reason] s1]; cbn.
  - repeat split. eexists. split; [reflexivity|].
    now rewrite !length_map, (insertedIds_length result), length_map.
  - destruct (handle (console_log (Rejected reason)) s1) as [o s2]. cbn.
    repeat split.
Qed.

End CreateOperationDBFacts.

Section CreateOperationDBExamples.
Import CreateOperationDB Fixtures.

(** The name of two spaces *)
Lemma createOneDoc_blank_name_throws_witness :
  validatorOneDoc (H:=exampleRuntime) ∅ (JString "  ") (JObject [])
  = Throw toUpperCase_of_undefined.
Proof.
  apply (createOneDoc_blank_name_throws (H:=exampleRuntime) ∅ "  " (JObject [])).
  reflexivity.
Defined.

(** [ user ] and [USER] are both looked up as [User]. *)
Lemma processModelName_case_and_padding_witness :
  processModelName " user " = Ret "User" /\ processModelName "USER" = Ret "User".
Proof.
  destruct (processModelName_case_and_padding (H:=exampleRuntime) ∅
              " " " " EmptyString EmptyString "user" "USER" JNull
              eq_refl eq_refl eq_refl eq_refl eq_refl) as (_ & Hn & _).
  destruct (Hn "User" eq_refl) as (Hb & _). split; [reflexivity | exact Hb].
Defined.

(** C2 as stated fails: with a name that does not resolve, a [null]
    record is answered with the unknown-entity error, not with a type
    mismatch. *)
Lemma validatorOneDoc_null_record_unknown_model :
  validatorOneDoc (H:=exampleRuntime) ∅ (JString "booking") JNull
  = Ret (IsError (Error UnknownEntity
           (dquote +:+ "Booking" +:+ dquote +:+ " is not a valid model"))) /\
  UnknownEntity <> TypeMismatch.
Proof. split; [reflexivity | discriminate]. Qed.

(** A boolean name, a [null] record for [Booking], and the name [hotel] that
    no model has *)
Lemma validatorOneDoc_type_mismatch_witness :
  validatorOneDoc (H:=exampleRuntime) bookingModels (JBoolean true) JNull
  = Ret (IsError (Error TypeMismatch "true is not a string. modelName must be a string")) /\
  validatorOneDoc (H:=exampleRuntime) bookingModels (JString " booking") JNull
  = Ret (IsError (Error TypeMismatch "null is not an object. data must be an object")) /\
  validatorOneDoc (H:=exampleRuntime) bookingModels (JString "hotel") JNull
  = Ret (IsError (Error UnknownEntity (dquote +:+ "Hotel" +:+ dquote +:+ " is not a valid model"))).
Proof.
  split; [|split].
  - apply (validatorOneDoc_type_mismatch (H:=exampleRuntime) bookingModels
             (JBoolean true) JNull). discriminate.
  - apply (proj1 (proj2 (validatorOneDoc_type_mismatch (H:=exampleRuntime) bookingModels
             (JString " booking") JNull)) " booking" "Booking"
             {| schema_obj := [("userId", JNull); ("total", JNull)] |});
      [reflexivity | reflexivity | reflexivity | right; left; reflexivity].
  - apply (proj1 (proj2 (proj2 (validatorOneDoc_type_mismatch (H:=exampleRuntime)
             bookingModels (JString "hotel") JNull))) "hotel" "Hotel");
      reflexivity.
Defined.

(** A booking with the two foreign keys [admin] and [x] *)
Lemma validatorOneDoc_unexpected_fields_witness :
  validatorOneDoc (H:=exampleRuntime) bookingModels (JString "booking")
    (JObject [("admin", JBoolean true); ("total", JNull); ("_id", JNull); ("x", JNull)])
  = Ret (IsError (Error UnexpectedFields
      "The following keys are not allowed: admin, x, Only userId, total are allowed")).
Proof.
  apply (validatorOneDoc_unexpected_fields (H:=exampleRuntime) bookingModels
           "booking" "Booking" {| schema_obj := [("userId", JNull); ("total", JNull)] |}
           [("admin", JBoolean true); ("total", JNull); ("_id", JNull); ("x", JNull)]);
    [reflexivity | reflexivity | discriminate].
Defined.

(** C3 as stated fails: for a name that does not resolve no batch insert is
    made at all; reading [bulkWrite] of [undefined] throws, and the
    TypeError is logged and thrown again. *)
Lemma createManyDocs_unknown_model_no_insert :
  let '(res, evs, _) :=
    run rejecting (createManyDocs ∅ "booking" [JObject []; JObject []; JObject []]) tt in
  res = Throws (TypeError "Cannot read properties of undefined (reading 'bulkWrite')") /\
  map called evs
  = [console_log (TypeError "Cannot read properties of undefined (reading 'bulkWrite')")] /\
  length (List.filter isBulkWrite (map called evs)) = 0.
Proof. repeat split. Qed.

(** Three records for [Booking] and a storage that reports one
    identifier for each operation *)
Lemma createManyDocs_one_batch_witness :
  let '(res, evs, _) :=
    run inserting (createManyDocs bookingModels " booking " [JNull; JNull; JNull]) tt in
  res = Returns ["65a1"; "65a2"; "65a3"] /\
  List.filter isBulkWrite (map called evs)
  = [Model_bulkWrite "Booking" [insertOne JNull; insertOne JNull; insertOne JNull]].
Proof.
  pose proof (createManyDocs_one_batch bookingModels " booking " [JNull; JNull; JNull]
                {| schema_obj := [("userId", JNull); ("total", JNull)] |}
                unit inserting tt eq_refl) as W.
  cbv zeta in W.
  destruct (run inserting (createManyDocs bookingModels " booking " [JNull; JNull; JNull]) tt)
    as [[res evs] s'].
  destruct W as (_ & Hb & Hr & _). split; [exact Hr | exact Hb].
Defined.

End CreateOperationDBExamples.

(** ** [signUpAction] *)
Section SignupActionFacts.
Import Signup.
Context `{Runtime} (emailDefaultData : list (string * JsValue)).
Context {St : Type} (handle : forall a, St -> Answer (SignupResult a) * St).

(** C5: when the validation passes and [User.exists] answers with a truthy
    value, the action returns the failure with the error on [email], and the
    existence query is the only call it makes. *)
Theorem signUpAction_duplicate_email
    (prevState : JsValue) (formData : list (string * JsValue))
    (d isUserExist : JsValue) (s s1 : St) :
  validateSignupFormData (Object_fromEntries formData) = Returns (passed d) ->
  handle (User_exists (JObject [("email", getMember d "email")])) s
  = (Yields isUserExist, s1) ->
  Boolean isUserExist = true ->
  run handle (signUpAction emailDefaultData prevState formData) s
  = (Returns (Some duplicateFailure),
     [existT (User_exists (JObject [("email", getMember d "email")])) (Yields isUserExist)],
     s1) /\
  error duplicateFailure = Some {[ "email" := "User already exists" ]}.
Proof.
  intros Hv Hex Htruthy. split; [|reflexivity].
  unfold signUpAction. rewrite Hv. cbn. rewrite Hex. cbn. rewrite Htruthy. reflexivity.
Qed.

(** C6: when the validation and the duplicate check pass and a call of the
    side-effect sequence is rejected, the action returns the failure that
    carries the fixed message only; the calls are the existence query, the
    hashing, the steps of the sequence in their order up to the rejected
    one, and the logging of the error: nothing is undone. *)
Theorem signUpAction_step_failure
    (prevState : JsValue) (formData : list (string * JsValue)) (s : St) :
  let '(res, evs, _) := run handle (signUpAction emailDefaultData prevState formData) s in
  forall (ev : Event SignupAction SignupResult) (step : Step) (reason : string),
    In ev evs -> stepOf (called ev) = Some step -> rejection ev = Some reason ->
    res = Returns (Some genericFailure) /\
    error genericFailure = None /\ data genericFailure = None /\
    exists (d : JsValue) (done : list (Event SignupAction SignupResult)) lastAnswer,
      validateSignupFormData (Object_fromEntries formData) = Returns (passed d) /\
      map called evs
      = [User_exists (JObject [("email", getMember d "email")]);
         bcrypt_hash (getMember d "password") 10]
        ++ map called done
        ++ [called ev; console_error "Signup error:" (Rejected reason)] /\
      evs = firstn 2 evs ++ done
            ++ [ev; existT (console_error "Signup error:" (Rejected reason)) lastAnswer] /\
      Forall (fun e => rejection e = None) (firstn 2 evs ++ done) /\
      map stepOf (map called (done ++ [ev]))
      = map Some (firstn (S (length done)) sideEffectSequence).
Proof.
  unfold signUpAction.
  destruct (validateSignupFormData (Object_fromEntries formData)) as [v|e] eqn:Hv;
    [|cbn; intros ? ? ? []].
  pose proof Hv as Hshape. unfold validateSignupFormData in Hshape.
  destruct (Zod.safeParse signupSchema (Object_fromEntries formData)) as [[d|issues]|e];
    [| |discriminate Hshape]; injection Hshape as <-; cbn [error success data];
    [|cbn; intros ? ? ? []].
  rewrite bool_decide_false by (intros [? ?]; discriminate).
  cbn -[signupSteps].
  destruct (handle (User_exists _) s) as [[u|r0] s1]; cbn -[signupSteps];
    [|intros ? ? ? [<-|[]]; discriminate].
  destruct (Boolean u); cbn -[signupSteps]; [intros ? ? ? [<-|[]]; discriminate|].
  destruct (handle (bcrypt_hash _ _) s1) as [[hash|r1] s2]; cbn -[signupSteps];
    [|intros ? ? ? [<-|[<-|[]]]; discriminate].
  unfold signupSteps. cbn.
  repeat match goal with
  | |- context [handle ?a ?st] =>
      match a with console_error _ _ => fail 1 | _ => idtac end;
      destruct (handle a st) as [[?|?] ?]; cbn
  | |- context [destructure_id ?x] => destruct x; cbn
  end;
  repeat match goal with
  | |- context [handle ?a ?st] => destruct (handle a st) as [? ?]; cbn
  end;
  intros ev step why Hin Hstep Hrej;
  repeat (destruct Hin as [<-|Hin]; [try discriminate Hstep; try discriminate Hrej|]);
  try contradiction;
  injection Hrej as <-;
  (split; [reflexivity|]); (split; [reflexivity|]); (split; [reflexivity|]);
  exists d;
  lazymatch goal with
  | |- context [existT (User_exists ?x) ?y :: ?e2 :: ?rest] =>
      exists (removelast (removelast rest))
  end; cbn; eexists; repeat split; repeat constructor.
Qed.

End SignupActionFacts.

(** ** [signupSchema] and [validateSignupFormData] *)
Section SignupSchemaFacts.
Import Zod Signup.
Context `{Runtime}.

Lemma runChecks_paths (checks : list ZodStringCheck) (data : string) (p : list string) :
  Forall (fun i => path i = p) (runChecks checks data p).2.
Proof.
  revert data. induction checks as [|check rest IH]; intros data; cbn; [constructor|].
  destruct check as [|n m|m|re m]; cbn;
    match goal with |- context [runChecks rest ?x p] =>
      specialize (IH x); destruct (runChecks rest x p) as [[dirty data2] issues] end;
    cbn in *; try assumption;
    match goal with |- context [if ?b then _ else _] => destruct b end;
    cbn; try assumption; constructor; auto.
Qed.

Lemma parseString_paths (checks : list ZodStringCheck) (input : JsValue) (p : list string) :
  Forall (fun i => path i = p) (parseString checks input p).2.
Proof.
  unfold parseString. destruct input; try (repeat constructor).
  pose proof (runChecks_paths checks s p) as Hp.
  destruct (runChecks checks s p) as [[dirty data] issues]. exact Hp.
Qed.

Lemma Forall_path0 (key : string) (rest : list string) (issues : list ZodIssue) :
  Forall (fun i => path i = key :: rest) issues ->
  Forall (fun i => path0 i = key) issues.
Proof. apply List.Forall_impl. intros i Hi. unfold path0. now rewrite Hi. Qed.

(** Every issue of the phone key is filed under [phone]. *)
Lemma phoneField_paths (input : JsValue) (r : ParseReturn) (issues : list ZodIssue) :
  phoneField input ["phone"] = Returns (r, issues) ->
  Forall (fun i => path0 i = "phone") issues.
Proof.
  assert (Hout : forall v r' issues',
    optional phoneSchema v ["phone"] = Returns (r', issues') ->
    Forall (fun i => path0 i = "phone") issues').
  { intros v r' issues'. unfold optional, phoneSchema, z_object, z_string.
    destruct v as [| | | | | |props]; cbn -[parseString];
      try (intros E; simplify_eq; solve [repeat constructor]).
    match goal with |- context [parseString ?c (getProp props "number") ?p] =>
      pose proof (parseString_paths c (getProp props "number") p) as P1;
      destruct (parseString c (getProp props "number") p) as [v1 i1] end.
    match goal with |- context [parseString ?c (getProp props "dialCode") ?p] =>
      pose proof (parseString_paths c (getProp props "dialCode") p) as P2;
      destruct (parseString c (getProp props "dialCode") p) as [v2 i2] end.
    cbn in *. intros E. simplify_eq. rewrite !Forall_app.
    repeat split; [eapply Forall_path0, P1 | eapply Forall_path0, P2 | constructor]. }
  unfold phoneField, pipe, transform, optional at 1, z_string.
  destruct input; cbn;
    try (intros E; simplify_eq; solve [repeat constructor]);
    try (intros E; apply (Hout _ _ _ E)).
  destruct (phoneTransform (JString s)) as [v|e]; [|discriminate].
  destruct (optional phoneSchema v ["phone"]) as [[r' issues']|e] eqn:E; [|discriminate].
  intros E'. simplify_eq. cbn. apply (Hout _ _ _ E).
Qed.

(** The error object, key by key *)
Lemma collectErrors_snoc (issues : list ZodIssue) (i : ZodIssue) :
  collectErrors (issues ++ [i]) = <[path0 i := Zod.message i]> (collectErrors issues).
Proof. unfold collectErrors. now rewrite fold_left_app. Qed.

Lemma collectErrors_fold_lookup (key : string) (issues : list ZodIssue)
    (acc1 acc2 : gmap string string) :
  acc1 !! key = acc2 !! key ->
  fold_left (fun errors issue => <[path0 issue := Zod.message issue]> errors) issues acc1 !! key
  = fold_left (fun errors issue => <[path0 issue := Zod.message issue]> errors) issues acc2 !! key.
Proof.
  revert acc1 acc2. induction issues as [|i issues IH]; intros acc1 acc2 E; cbn; [exact E|].
  apply IH. destruct (decide (path0 i = key)) as [->|Hne].
  - now rewrite !lookup_insert_eq.
  - now rewrite !lookup_insert_ne.
Qed.

Lemma collectErrors_fold_other (key : string) (issues : list ZodIssue)
    (acc : gmap string string) :
  Forall (fun i => path0 i <> key) issues ->
  fold_left (fun errors issue => <[path0 issue := Zod.message issue]> errors) issues acc !! key
  = acc !! key.
Proof.
  revert acc. induction issues as [|i issues IH]; intros acc Hall; cbn; [reflexivity|].
  inversion Hall as [|? ? Hi Hrest]; subst.
  rewrite (IH _ Hrest). now rewrite lookup_insert_ne.
Qed.

Lemma collectErrors_skip_l (key : string) (l1 l2 : list ZodIssue) :
  Forall (fun i => path0 i <> key) l1 ->
  collectErrors (l1 ++ l2) !! key = collectErrors l2 !! key.
Proof.
  intros Hall. unfold collectErrors. rewrite fold_left_app.
  apply collectErrors_fold_lookup. now rewrite collectErrors_fold_other.
Qed.

Lemma collectErrors_skip_r (key : string) (l1 l2 : list ZodIssue) :
  Forall (fun i => path0 i <> key) l2 ->
  collectErrors (l1 ++ l2) !! key = collectErrors l1 !! key.
Proof.
  intros Hall. unfold collectErrors. rewrite fold_left_app.
  now rewrite collectErrors_fold_other.
Qed.

Lemma Forall_path0_other (key key' : string) (issues : list ZodIssue) :
  key <> key' ->
  Forall (fun i => path0 i = key) issues ->
  Forall (fun i => path0 i <> key') issues.
Proof. intros Hne. apply List.Forall_impl. intros i ->. exact Hne. Qed.

(** The object schema on a form whose six text keys hold strings, in terms
    of what the checks of each key and the schema of [phone] give. *)
Lemma z_object_signupShape
    (props : list (string * JsValue)) (email pw cpw fn ln terms : string)
    (r7 : ParseReturn) (I7 : list ZodIssue) :
  textFields props email pw cpw fn ln terms ->
  phoneField (getProp props "phone") ["phone"] = Returns (r7, I7) ->
  let c1 := runChecks emailChecks email ["email"] in
  let c2 := runChecks passwordChecks pw ["password"] in
  let c3 := runChecks confirmPasswordChecks cpw ["confirmPassword"] in
  let c4 := runChecks firstnameChecks fn ["firstname"] in
  let c5 := runChecks lastnameChecks ln ["lastname"] in
  let c6 := runChecks acceptTermsChecks terms ["acceptTerms"] in
  z_object signupShape (JObject props) []
  = Returns
      (mergeObjectSync
         (c6.1.1 || (c5.1.1 || (c4.1.1 || (c3.1.1 || (c2.1.1 || (c1.1.1 || false))))))
         [("phone", r7, hasProp props "phone")]
         [ ("email", JString c1.1.2); ("password", JString c2.1.2);
           ("confirmPassword", JString c3.1.2); ("firstname", JString c4.1.2);
           ("lastname", JString c5.1.2); ("acceptTerms", JString c6.1.2) ],
       c1.2 ++ c2.2 ++ c3.2 ++ c4.2 ++ c5.2 ++ c6.2 ++ I7 ++ []).
Proof.
  intros (E1 & E2 & E3 & E4 & E5 & E6) E7 c1 c2 c3 c4 c5 c6.
  unfold z_object, signupShape. cbn [parseShape]. unfold z_string.
  cbn [app]. rewrite E1, E2, E3, E4, E5, E6, E7. unfold parseString.
  fold c1 c2 c3 c4 c5 c6.
  destruct c1 as [[d1 x1] I1], c2 as [[d2 x2] I2], c3 as [[d3 x3] I3],
    c4 as [[d4 x4] I4], c5 as [[d5 x5] I5], c6 as [[d6 x6] I6].
  destruct d1, d2, d3, d4, d5, d6; reflexivity.
Qed.

(** The object schema on any form: every key is parsed, and the issues come
    in the order of the shape. *)
Lemma z_object_signupShape_issues (props : list (string * JsValue)) :
  let field checks key := parseString checks (getProp props key) [key] in
  let p1 := field emailChecks "email" in
  let p2 := field passwordChecks "password" in
  let p3 := field confirmPasswordChecks "confirmPassword" in
  let p4 := field firstnameChecks "firstname" in
  let p5 := field lastnameChecks "lastname" in
  let p6 := field acceptTermsChecks "acceptTerms" in
  z_object signupShape (JObject props) []
  = match phoneField (getProp props "phone") ["phone"] with
    | Throws e => Throws e
    | Returns (r7, I7) =>
        Returns
          (mergeObjectSync false
             [ ("email", p1.1, hasProp props "email");
               ("password", p2.1, hasProp props "password");
               ("confirmPassword", p3.1, hasProp props "confirmPassword");
               ("firstname", p4.1, hasProp props "firstname");
               ("lastname", p5.1, hasProp props "lastname");
               ("acceptTerms", p6.1, hasProp props "acceptTerms");
               ("phone", r7, hasProp props "phone") ] [],
           p1.2 ++ p2.2 ++ p3.2 ++ p4.2 ++ p5.2 ++ p6.2 ++ I7 ++ [])
    end.
Proof.
  intros field p1 p2 p3 p4 p5 p6.
  unfold z_object, signupShape. cbn [parseShape]. unfold z_string. cbn [app].
  fold (field emailChecks "email") (field passwordChecks "password")
       (field confirmPasswordChecks "confirmPassword")
       (field firstnameChecks "firstname") (field lastnameChecks "lastname")
       (field acceptTermsChecks "acceptTerms").
  fold p1 p2 p3 p4 p5 p6.
  destruct p1, p2, p3, p4, p5, p6.
  destruct (phoneField (getProp props "phone") ["phone"]) as [[r7 I7]|e]; reflexivity.
Qed.

(** An object comes out [OK] only when every key did. *)
Lemma mergeObjectSync_OK (pairs : list (string * ParseReturn * bool))
    (dirty : bool) (finalObject : list (string * JsValue)) (v : JsValue) :
  mergeObjectSync dirty pairs finalObject = OK v ->
  dirty = false /\ Forall (fun p => exists x, p.1.2 = OK x) pairs.
Proof.
  revert dirty finalObject. induction pairs as [|[[key value] alwaysSet] rest IH];
    intros dirty finalObject; cbn.
  - destruct dirty; [discriminate|]. intros _. split; [reflexivity | constructor].
  - destruct value as [x|x|]; [| |discriminate].
    + intros E. destruct (IH _ _ E) as [-> Hrest]. split; [reflexivity|].
      constructor; [cbn; eauto | exact Hrest].
    + intros E. destruct (IH _ _ E) as [Hd _]. discriminate Hd.
Qed.

(** The checks of [acceptTerms]: one regular-expression test *)
Lemma parseString_acceptTerms (terms : string) :
  parseString acceptTermsChecks (JString terms) ["acceptTerms"]
  = (if includes "on" terms then OK (JString terms) else DIRTY (JString terms),
     if includes "on" terms then []
     else [{| path := ["acceptTerms"]; Zod.message := termsMessage |}]).
Proof. cbn. destruct (includes "on" terms); reflexivity. Qed.

(** C9: the value of [acceptTerms] passes exactly when [on] occurs in it
    somewhere; then the error object has no entry for the key, and
    otherwise the validation fails with the terms message under it. *)
Theorem acceptTerms_substring (props : list (string * JsValue)) (terms : string) :
  getProp props "acceptTerms" = JString terms ->
  (includes "on" terms = true <-> exists pre post, terms = pre +:+ "on" +:+ post) /\
  parseString acceptTermsChecks (JString terms) ["acceptTerms"]
  = (if includes "on" terms then OK (JString terms) else DIRTY (JString terms),
     if includes "on" terms then []
     else [{| path := ["acceptTerms"]; Zod.message := termsMessage |}]) /\
  forall res, validateSignupFormData (JObject props) = Returns res ->
    if includes "on" terms
    then forall errors, error res = Some errors -> errors !! "acceptTerms" = None
    else exists errors,
           success res = false /\ error res = Some errors /\
           errors !! "acceptTerms" = Some termsMessage.
Proof.
  intros Eterms. split; [apply includes_spec|]. split; [apply parseString_acceptTerms|].
  intros res. unfold validateSignupFormData, safeParse, signupSchema, refine.
  rewrite z_object_signupShape_issues. cbv zeta.
  destruct (phoneField (getProp props "phone") ["phone"]) as [[r7 I7]|e] eqn:E7;
    [|discriminate].
  pose proof (phoneField_paths _ _ _ E7) as H7.
  rewrite Eterms, parseString_acceptTerms.
  pose proof (parseString_paths emailChecks (getProp props "email") ["email"]) as H1.
  pose proof (parseString_paths passwordChecks (getProp props "password") ["password"]) as H2.
  pose proof (parseString_paths confirmPasswordChecks (getProp props "confirmPassword")
                ["confirmPassword"]) as H3.
  pose proof (parseString_paths firstnameChecks (getProp props "firstname") ["firstname"]) as H4.
  pose proof (parseString_paths lastnameChecks (getProp props "lastname") ["lastname"]) as H5.
  apply Forall_path0 in H1, H2, H3, H4, H5.
  destruct (parseString emailChecks _ _) as [r1 I1],
    (parseString passwordChecks _ _) as [r2 I2],
    (parseString confirmPasswordChecks _ _) as [r3 I3],
    (parseString firstnameChecks _ _) as [r4 I4],
    (parseString lastnameChecks _ _) as [r5 I5].
  cbn [fst snd] in *.
  assert (Hlookup : forall tail,
    Forall (fun i => path0 i <> "acceptTerms") tail ->
    forall I6, collectErrors ((I1 ++ I2 ++ I3 ++ I4 ++ I5 ++ I6 ++ I7 ++ []) ++ tail)
                 !! "acceptTerms"
               = collectErrors I6 !! "acceptTerms").
  { intros tail Htail I6. rewrite collectErrors_skip_r by exact Htail.
    rewrite !collectErrors_skip_l
      by (eapply Forall_path0_other; [|eassumption]; discriminate).
    apply collectErrors_skip_r. rewrite Forall_app. split; [|constructor].
    eapply Forall_path0_other; [|exact H7]. discriminate. }
  assert (Hnil : forall I6,
    collectErrors (I1 ++ I2 ++ I3 ++ I4 ++ I5 ++ I6 ++ I7 ++ []) !! "acceptTerms"
    = collectErrors I6 !! "acceptTerms").
  { intros I6. rewrite <- (Hlookup [] (List.Forall_nil _) I6). now rewrite !app_nil_r. }
  assert (Hrefine : Forall (fun i => path0 i <> "acceptTerms")
            [{| path := [] ++ ["confirmPassword"]; Zod.message := "Passwords do not match" |}]).
  { repeat constructor. discriminate. }
  assert (Hone : collectErrors
            [{| path := ["acceptTerms"]; Zod.message := termsMessage |}] !! "acceptTerms"
          = Some termsMessage) by (unfold collectErrors; cbn; apply lookup_insert_eq).
  destruct (includes "on" terms) eqn:Hon.
  - pose proof (Hnil []) as Hn. pose proof (Hlookup _ Hrefine []) as Hl.
    destruct (mergeObjectSync _ _ _) as [v|v|];
      [destruct (strictEquals _ _) | destruct (strictEquals _ _) |];
      intros E; simplify_eq; cbn [error]; intros errors E'; simplify_eq;
      cbn [app] in *; first [ rewrite Hn | rewrite Hl ]; reflexivity.
  - pose proof (Hnil [{| path := ["acceptTerms"]; Zod.message := termsMessage |}]) as Hn.
    pose proof (Hlookup _ Hrefine
                  [{| path := ["acceptTerms"]; Zod.message := termsMessage |}]) as Hl.
    rewrite Hone in Hn, Hl.
    destruct (mergeObjectSync _ _ _) as [v|v|] eqn:Em.
    + apply mergeObjectSync_OK in Em as [_ Hall].
      rewrite !Forall_cons in Hall. destruct Hall as (_&_&_&_&_&[x Hx]&_).
      discriminate Hx.
    + destruct (strictEquals _ _); intros E; simplify_eq; cbn [error success];
        eexists; (split; [reflexivity|]); (split; [reflexivity|]);
        cbn [app] in *; first [ rewrite Hn | rewrite Hl ]; reflexivity.
    + intros E; simplify_eq; cbn [error success].
      eexists; (split; [reflexivity|]); (split; [reflexivity|]).
      cbn [app] in *. rewrite Hn. reflexivity.
Qed.

(** A form without [phone]: the key passes and stays [undefined]. *)
Lemma phoneField_absent (p : list string) :
  phoneField JUndefined p = Returns (OK JUndefined, []).
Proof. reflexivity. Qed.

(** C7, amended: when the six text keys hold strings, the schema of [phone]
    neither throws nor reports a type error, and the two passwords differ,
    the validation fails and the error object has [Passwords do not match]
    under [confirmPassword]. *)
Theorem validateSignupFormData_password_mismatch
    (props : list (string * JsValue)) (email pw cpw fn ln terms : string)
    (r7 : ParseReturn) (I7 : list ZodIssue) :
  textFields props email pw cpw fn ln terms ->
  phoneField (getProp props "phone") ["phone"] = Returns (r7, I7) ->
  r7 <> INVALID ->
  pw <> cpw ->
  exists errors,
    validateSignupFormData (JObject props)
    = Returns {| success := false; error := Some errors; data := None; message := None |} /\
    errors !! "confirmPassword" = Some "Passwords do not match".
Proof.
  intros Htext E7 Hr7 Hne.
  pose proof (z_object_signupShape _ _ _ _ _ _ _ _ _ Htext E7) as Hobj.
  cbv zeta in Hobj.
  unfold validateSignupFormData, safeParse, signupSchema, refine. rewrite Hobj.
  change ((runChecks passwordChecks pw ["password"]).1.2) with pw.
  change ((runChecks confirmPasswordChecks cpw ["confirmPassword"]).1.2) with cpw.
  match goal with |- context [mergeObjectSync ?d _ _] => generalize d; intros dirty end.
  match goal with |- context [(OK _, ?l)] => generalize l; intros issues end.
  apply String.eqb_neq in Hne.
  destruct r7 as [v|v|]; [| |contradiction]; cbn [mergeObjectSync];
    [destruct dirty|];
    match goal with |- context [strictEquals ?a ?b] =>
      replace (strictEquals a b) with false
        by (destruct v, (hasProp props "phone"); cbn; symmetry; exact Hne)
    end;
    (eexists; split; [reflexivity|]);
    rewrite collectErrors_snoc; apply lookup_insert_eq.
Qed.

Lemma getProp_hasProp (props : list (string * JsValue)) (key : string) :
  getProp props key <> JUndefined -> hasProp props key = true.
Proof.
  induction props as [|[k v] rest IH]; cbn; [congruence|].
  destruct (String.eqb k key); [reflexivity|]. exact IH.
Qed.

Lemma length_ltb_1 (s : string) : s <> EmptyString -> (String.length s <? 1) = false.
Proof. destruct s; [congruence | reflexivity]. Qed.

(** A phone that decodes to an object without a truthy value is dropped. *)
Lemma phoneField_falsy (phone : string) (kvs : list (string * JsValue)) (p : list string) :
  JSON_parse phone = Some (JObject kvs) ->
  Forall (fun kv => Boolean kv.2 = false) kvs ->
  phoneField (JString phone) p = Returns (OK JUndefined, []).
Proof.
  intros Hparse Hfalsy.
  assert (Hex : existsb Boolean (map snd kvs) = false).
  { clear Hparse. induction Hfalsy as [|kv rest Hkv _ IH]; cbn [existsb map]; [reflexivity|].
    now rewrite Hkv, IH. }
  unfold phoneField, pipe, transform, optional, z_string, phoneTransform, isValidJSON.
  cbn. rewrite Hparse. rewrite bool_decide_true by eauto. cbn. rewrite Hex. reflexivity.
Qed.

(** C8: a form that is valid otherwise and whose [phone] decodes to an
    object without a truthy value, the empty object among them, passes, and
    [phone] is [undefined] in the data. *)
Theorem validateSignupFormData_falsy_phone
    (props : list (string * JsValue)) (email pw fn ln terms phone : string)
    (kvs : list (string * JsValue)) :
  textFields props email pw pw fn ln terms ->
  trim email <> EmptyString -> emailRegex_test (trim email) = true ->
  8 <= String.length pw ->
  trim fn <> EmptyString -> trim ln <> EmptyString ->
  includes "on" terms = true ->
  getProp props "phone" = JString phone ->
  JSON_parse phone = Some (JObject kvs) ->
  Forall (fun kv => Boolean kv.2 = false) kvs ->
  let data :=
    JObject [ ("email", JString (trim email)); ("password", JString pw);
              ("confirmPassword", JString pw); ("firstname", JString (trim fn));
              ("lastname", JString (trim ln)); ("acceptTerms", JString terms);
              ("phone", JUndefined) ] in
  validateSignupFormData (JObject props) = Returns (passed data) /\
  getMember data "phone" = JUndefined.
Proof.
  intros Htext Hemail Hre Hpw Hfn Hln Hterms Hphone Hparse Hfalsy data.
  split; [|reflexivity].
  pose proof (phoneField_falsy phone kvs ["phone"] Hparse Hfalsy) as E7.
  rewrite <- Hphone in E7.
  pose proof (z_object_signupShape _ _ _ _ _ _ _ _ _ Htext E7) as Hobj.
  cbv zeta in Hobj.
  unfold validateSignupFormData, safeParse, signupSchema, refine. rewrite Hobj.
  rewrite (getProp_hasProp props "phone") by (rewrite Hphone; discriminate).
  assert (Hpw8 : (String.length pw <? 8) = false) by (apply Nat.ltb_ge; exact Hpw).
  assert (Hpw1 : (String.length pw <? 1) = false) by (apply Nat.ltb_ge; lia).
  cbn [runChecks emailChecks passwordChecks confirmPasswordChecks firstnameChecks
       lastnameChecks acceptTermsChecks fst snd].
  rewrite Hterms, Hre, (length_ltb_1 _ Hemail), (length_ltb_1 _ Hfn),
    (length_ltb_1 _ Hln), Hpw8, Hpw1.
  cbn. rewrite String.eqb_refl. reflexivity.
Qed.

End SignupSchemaFacts.

Section SignupExamples.
Import Zod Signup Fixtures.

(** C7 as stated fails: a form whose terms box is not ticked has no
    [acceptTerms] entry, the object schema aborts, the refinement does not
    run, and the error object has no [confirmPassword] although the two
    passwords differ. *)
Lemma validateSignupFormData_mismatch_unreported :
  exists errors,
    validateSignupFormData (H:=exampleRuntime)
      (Object_fromEntries (entries "password1" "password2" []))
    = Returns {| success := false; error := Some errors; data := None; message := None |} /\
    errors !! "confirmPassword" = None /\
    errors !! "acceptTerms" = Some "Required".
Proof. eexists. split; [reflexivity|]. split; vm_compute; reflexivity. Qed.

(** A form without phone whose two passwords differ *)
Lemma validateSignupFormData_password_mismatch_witness :
  exists errors,
    validateSignupFormData (H:=exampleRuntime)
      (Object_fromEntries (entries "password1" "password2" [("acceptTerms", JString "on")]))
    = Returns {| success := false; error := Some errors; data := None; message := None |} /\
    errors !! "confirmPassword" = Some "Passwords do not match".
Proof.
  apply (validateSignupFormData_password_mismatch (H:=exampleRuntime) _
           "ann@example.org" "password1" "password2" "Ann" "Lee" "on" (OK JUndefined) []).
  - repeat split.
  - reflexivity.
  - discriminate.
  - discriminate.
Defined.

(** A valid form whose phone is the text of the empty object *)
Lemma validateSignupFormData_falsy_phone_witness :
  validateSignupFormData (H:=exampleRuntime)
    (Object_fromEntries
       (entries "password1" "password1"
          [("acceptTerms", JString "on"); ("phone", JString "{}")]))
  = Returns (passed (JObject
      [ ("email", JString "ann@example.org"); ("password", JString "password1");
        ("confirmPassword", JString "password1"); ("firstname", JString "Ann");
        ("lastname", JString "Lee"); ("acceptTerms", JString "on");
        ("phone", JUndefined) ])).
Proof.
  apply (validateSignupFormData_falsy_phone (H:=exampleRuntime) _
           "ann@example.org" "password1" "Ann" "Lee" "on" "{}" []).
  - repeat split.
  - discriminate.
  - reflexivity.
  - cbn. lia.
  - discriminate.
  - discriminate.
  - reflexivity.
  - reflexivity.
  - reflexivity.
  - constructor.
Defined.

(** [monday] and [none] pass, [off] does not. *)
Lemma acceptTerms_substring_witness :
  parseString (H:=exampleRuntime) acceptTermsChecks (JString "monday") ["acceptTerms"]
  = (OK (JString "monday"), []) /\
  parseString (H:=exampleRuntime) acceptTermsChecks (JString "none") ["acceptTerms"]
  = (OK (JString "none"), []) /\
  parseString (H:=exampleRuntime) acceptTermsChecks (JString "off") ["acceptTerms"]
  = (DIRTY (JString "off"), [{| path := ["acceptTerms"]; Zod.message := termsMessage |}]).
Proof.
  split; [|split].
  - exact (proj1 (proj2 (acceptTerms_substring (H:=exampleRuntime)
             [("acceptTerms", JString "monday")] "monday" eq_refl))).
  - exact (proj1 (proj2 (acceptTerms_substring (H:=exampleRuntime)
             [("acceptTerms", JString "none")] "none" eq_refl))).
  - exact (proj1 (proj2 (acceptTerms_substring (H:=exampleRuntime)
             [("acceptTerms", JString "off")] "off" eq_refl))).
Defined.

(** A valid form and a storage that knows the email *)
Lemma signUpAction_duplicate_email_witness :
  run userKnown
    (signUpAction (H:=exampleRuntime) [] JNull
       (entries "password1" "password1" [("acceptTerms", JString "on")])) tt
  = (Returns (Some duplicateFailure),
     [existT (User_exists (JObject [("email", JString "ann@example.org")]))
        (Yields (JObject [("_id", JString "65a0")]))],
     tt).
Proof.
  apply (signUpAction_duplicate_email (H:=exampleRuntime) [] userKnown JNull
           (entries "password1" "password1" [("acceptTerms", JString "on")])
           (annData "password1") (JObject [("_id", JString "65a0")]) tt tt);
    reflexivity.
Defined.

(** A valid form and a storage that rejects the creation of the account:
    six calls, the last of them [console.error] *)
Lemma signUpAction_step_failure_witness :
  let '(res, evs, _) :=
    run accountFails
      (signUpAction (H:=exampleRuntime) [] JNull
         (entries "password1" "password1" [("acceptTerms", JString "on")])) tt in
  res = Returns (Some genericFailure) /\ length evs = 6.
Proof.
  pose proof (signUpAction_step_failure (H:=exampleRuntime) [] accountFails JNull
                (entries "password1" "password1" [("acceptTerms", JString "on")]) tt) as W.
  destruct (run accountFails _ tt) as [[res evs] s'] eqn:E.
  vm_compute in E. injection E as <- <- <-.
  split; [|reflexivity].
  refine (proj1 (W (existT (createAccount (JObject
            [ ("userId", JString "65a1"); ("provider", JString "credentials");
              ("providerAccountId", JString "65a1"); ("type", JString "credentials");
              ("password", JString "$2b$10$hash") ])) (Rejects "E11000 duplicate key"))
          AccountCreation "E11000 duplicate key" _ eq_refl eq_refl)).
  do 4 right. left. reflexivity.
Defined.

End SignupExamples.

(** * Further properties *)

(** ** Running composed bodies *)
Section RunFacts.
Context {action : Type} {result : action -> Type}.
Context {St : Type} (handle : forall a : action, St -> Answer (result a) * St).

Lemma run_bind {A B} (p : Prog action result A) (f : A -> Prog action result B) (s : St) :
  run handle (bind p f) s
  = match run handle p s with
    | (Returns a, evs, s1) =>
        let '(res, evs', s2) := run handle (f a) s1 in (res, evs ++ evs', s2)
    | (Throws e, evs, s1) => (Throws e, evs, s1)
    end.
Proof.
  revert s. induction p as [r|e|a k IH]; intros s; cbn.
  - destruct (run handle (f r) s) as [[res evs'] s2]. reflexivity.
  - reflexivity.
  - destruct (handle a s) as [o s1]. rewrite IH.
    destruct (run handle (k o) s1) as [[[x|e] evs] s2]; [|reflexivity].
    destruct (run handle (f x) s2) as [[res evs'] s3]. reflexivity.
Qed.

Lemma run_try_catch {A} (p : Prog action result A) (h : JsError -> Prog action result A)
    (s : St) :
  run handle (try_catch p h) s
  = match run handle p s with
    | (Returns a, evs, s1) => (Returns a, evs, s1)
    | (Throws e, evs, s1) =>
        let '(res, evs', s2) := run handle (h e) s1 in (res, evs ++ evs', s2)
    end.
Proof.
  revert s. induction p as [r|e|a k IH]; intros s; cbn.
  - reflexivity.
  - destruct (run handle (h e) s) as [[res evs'] s2]. reflexivity.
  - destruct (handle a s) as [o s1]. rewrite IH.
    destruct (run handle (k o) s1) as [[[x|e] evs] s2]; [reflexivity|].
    destruct (run handle (h e) s2) as [[res evs'] s3]. reflexivity.
Qed.

End RunFacts.

(** ** More on [validatorOneDoc], [createOneDoc] and [createManyDocs] *)
Section CreateOperationDBMore.
Import CreateOperationDB Calls.
Context `{Runtime} (dataModels : gmap string Model).
Context {St : Type} (handle : forall a, St -> Answer (DbResult a) * St).

Lemma filter_negb_nil {A} (f : A -> bool) (l : list A) :
  List.filter (fun x => negb (f x)) l = [] <-> Forall (fun x => f x = true) l.
Proof.
  induction l as [|x l IH]; cbn; [split; [constructor | reflexivity]|].
  destruct (f x) eqn:E; cbn.
  - rewrite IH. split; [intros Hl; constructor; assumption |].
    intros Hl. inversion Hl; subst. assumption.
  - split; [discriminate|]. intros Hl. inversion Hl; subst. congruence.
Qed.

(** Every run of the validator: an error value or an exception before any
    call, or one call of [Model.validate] on a plain object whose keys are
    all allowed, whose answer decides the result. *)
Lemma validatorOneDoc_runs (modelName data : JsValue) (s : St) :
  (exists e, run handle (validatorOneDoc dataModels modelName data) s
             = (Returns (IsError e), [], s) /\ forall r, e <> Rejected r) \/
  (exists e, run handle (validatorOneDoc dataModels modelName data) s = (Throws e, [], s)) \/
  (exists name n model props,
     modelName = JString name /\ processModelName name = Ret n /\
     dataModels !! n = Some model /\ data = JObject props /\
     Forall (fun k => Array_includes (map fst (schema_obj model) ++ ["_id"]) k = true)
       (map fst props) /\
     let check := Model_validate n data (map fst (schema_obj model)) in
     run handle (validatorOneDoc dataModels modelName data) s
     = match handle check s with
       | (Yields tt, s1) => (Returns (Validated n data), [existT check (Yields tt)], s1)
       | (Rejects r, s1) =>
           (Returns (IsError (Rejected r)), [existT check (Rejects r)], s1)
       end).
Proof.
  unfold validatorOneDoc.
  destruct modelName as [| | | |name| |];
    try (left; eexists; split; [reflexivity | discriminate]).
  destruct (processModelName name) as [n|e|a k] eqn:En; cbn [bind].
  2:{ right. left. eexists. reflexivity. }
  2:{ unfold processModelName in En. destruct (at0 _); discriminate En. }
  destruct (dataModels !! n) as [model|] eqn:Hm;
    [|left; eexists; split; [reflexivity | discriminate]].
  destruct data as [| | | | |elems|props];
    try (left; eexists; split; [reflexivity | discriminate]).
  cbn [typeof isNull Array_isArray String.eqb Ascii.eqb Bool.eqb negb orb Object_keys].
  rewrite findOnlyUniqueElements_twice.
  destruct (List.filter _ (map fst props)) as [|k0 rest] eqn:Hf;
    [|left; eexists; split; [reflexivity | discriminate]].
  right. right. exists name, n, model, props.
  apply filter_negb_nil in Hf.
  repeat (split; [first [reflexivity | assumption]|]).
  cbn. destruct (handle _ s) as [[[]|r] s1]; reflexivity.
Qed.

Lemma validatorOneDoc_calls (modelName data : JsValue) (s : St) :
  let '(_, evs, _) := run handle (validatorOneDoc dataModels modelName data) s in
  length evs <= 1 /\
  Forall (fun ev => isValidate (called ev) = true) evs /\
  List.filter isWrite (map called evs) = [] /\
  List.filter isLog (map called evs) = [].
Proof.
  destruct (validatorOneDoc_runs modelName data s)
    as [(e & -> & _) | [(e & ->) | (name & n & model & props & _ & _ & _ & _ & _ & ->)]];
    [cbn; repeat split; auto.. |].
  cbv zeta. destruct (handle _ s) as [[[]|r] s1]; cbn; repeat split; auto.
Qed.

(** The validator calls nothing but [Model.validate], once at most: it
    neither writes to the storage nor logs. *)
Theorem validatorOneDoc_only_validates (modelName data : JsValue) (s : St) :
  let '(_, evs, _) := run handle (validatorOneDoc dataModels modelName data) s in
  length evs <= 1 /\
  Forall (fun ev => isValidate (called ev) = true) evs /\
  List.filter isWrite (map called evs) = [] /\
  List.filter isLog (map called evs) = [].
Proof. apply validatorOneDoc_calls. Qed.

(** The run of the validator behind a record declared valid *)
Lemma validatorOneDoc_validated
    (modelName data : JsValue) (s s' : St) (n : string) (d : JsValue)
    (evs : list (Event DbAction DbResult)) :
  run handle (validatorOneDoc dataModels modelName data) s
  = (Returns (Validated n d), evs, s') ->
  d = data /\
  exists name model props,
    modelName = JString name /\ processModelName name = Ret n /\
    dataModels !! n = Some model /\ data = JObject props /\
    Forall (fun k => Array_includes (map fst (schema_obj model) ++ ["_id"]) k = true)
      (map fst props) /\
    evs = [existT (Model_validate n data (map fst (schema_obj model))) (Yields tt)].
Proof.
  destruct (validatorOneDoc_runs modelName data s)
    as [(e & -> & _) | [(e & ->) |
        (name & n' & model & props & Hn & Hp & Hm & Hd & Hk & ->)]];
    [discriminate | discriminate |].
  cbv zeta. destruct (handle _ s) as [[[]|r] s1]; [|discriminate].
  intros E. injection E as <- <- <- <-.
  split; [reflexivity|]. exists name, model, props. auto 10.
Qed.

(** A record is declared valid only as a plain object whose keys are schema
    fields or [_id], under the normal form of a registered name, after
    [Model.validate] accepted it; the record comes back as it was given. *)
Theorem validatorOneDoc_sound
    (modelName data : JsValue) (s s' : St) (n : string) (d : JsValue)
    (evs : list (Event DbAction DbResult)) :
  run handle (validatorOneDoc dataModels modelName data) s
  = (Returns (Validated n d), evs, s') ->
  d = data /\
  exists name model props,
    modelName = JString name /\ processModelName name = Ret n /\
    dataModels !! n = Some model /\ data = JObject props /\
    Forall (fun k => Array_includes (map fst (schema_obj model) ++ ["_id"]) k = true)
      (map fst props) /\
    evs = [existT (Model_validate n data (map fst (schema_obj model))) (Yields tt)].
Proof. apply validatorOneDoc_validated. Qed.

(** Every run of [createOneDoc], from the run of the validator and the
    answers to the two writes *)
Lemma createOneDoc_runs (modelName data : JsValue) (s : St) :
  run handle (createOneDoc dataModels modelName data) s
  = let '(res, evs, s1) := run handle (validatorOneDoc dataModels modelName data) s in
    match res with
    | Throws e => (Throws e, evs, s1)
    | Returns (IsError e) => (Throws e, evs, s1)
    | Returns (Validated n d) =>
        match handle (Model_new n d) s1 with
        | (Rejects r, s2) =>
            let '(o, s3) := handle (console_log (Rejected r)) s2 in
            (Throws (Rejected r),
             evs ++ [existT (Model_new n d) (Rejects r);
                     existT (console_log (Rejected r)) o], s3)
        | (Yields doc, s2) =>
            match handle (Document_save doc) s2 with
            | (Yields saved, s3) =>
                (Returns saved,
                 evs ++ [existT (Model_new n d) (Yields doc);
                         existT (Document_save doc) (Yields saved)], s3)
            | (Rejects r, s3) =>
                let '(o, s4) := handle (console_log (Rejected r)) s3 in
                (Throws (Rejected r),
                 evs ++ [existT (Model_new n d) (Yields doc);
                         existT (Document_save doc) (Rejects r);
                         existT (console_log (Rejected r)) o], s4)
            end
        end
    end.
Proof.
  unfold createOneDoc. rewrite run_bind.
  destruct (run handle (validatorOneDoc dataModels modelName data) s)
    as [[[[e|n d]|e] evs] s1]; cbn.
  - rewrite app_nil_r. reflexivity.
  - destruct (handle (Model_new n d) s1) as [[doc|r] s2]; cbn.
    + destruct (handle (Document_save doc) s2) as [[saved|r] s3]; cbn; [reflexivity|].
      destruct (handle (console_log (Rejected r)) s3) as [o s4]. reflexivity.
    + destruct (handle (console_log (Rejected r)) s2) as [o s3]. reflexivity.
  - reflexivity.
Qed.

(** What the validator answers with an error value, [createOneDoc] throws
    unchanged: it makes the calls of the validator and no other, so it
    neither writes nor logs. *)
Theorem createOneDoc_invalid_throws
    (modelName data : JsValue) (s s1 : St) (e : JsError)
    (evs : list (Event DbAction DbResult)) :
  run handle (validatorOneDoc dataModels modelName data) s
  = (Returns (IsError e), evs, s1) ->
  run handle (createOneDoc dataModels modelName data) s = (Throws e, evs, s1) /\
  List.filter isWrite (map called evs) = [] /\
  List.filter isLog (map called evs) = [].
Proof.
  intros Hv. rewrite createOneDoc_runs, Hv. split; [reflexivity|].
  pose proof (validatorOneDoc_calls modelName data s) as Hc. rewrite Hv in Hc.
  destruct Hc as (_ & _ & Hw & Hl). auto.
Qed.

(** [createOneDoc] returns a document only after the record was validated,
    constructed and saved, in this order and under the normal form of the
    name, and what it returns is what the save answered. *)
Theorem createOneDoc_returns_saved
    (modelName data saved : JsValue) (s s' : St) (evs : list (Event DbAction DbResult)) :
  run handle (createOneDoc dataModels modelName data) s = (Returns saved, evs, s') ->
  exists name n model doc,
    modelName = JString name /\ processModelName name = Ret n /\
    dataModels !! n = Some model /\
    evs = [ existT (Model_validate n data (map fst (schema_obj model))) (Yields tt);
            existT (Model_new n data) (Yields doc);
            existT (Document_save doc) (Yields saved) ].
Proof.
  rewrite createOneDoc_runs.
  destruct (run handle (validatorOneDoc dataModels modelName data) s)
    as [[[[e|n d]|e] evs0] s1] eqn:Hv; try discriminate.
  apply validatorOneDoc_validated in Hv
    as (-> & name & model & props & -> & Hn & Hm & Hd & _ & ->).
  destruct (handle (Model_new n data) s1) as [[doc|r] s2].
  - destruct (handle (Document_save doc) s2) as [[saved'|r] s3].
    + intros E. injection E as <- <- <-. exists name, n, model, doc. auto.
    + destruct (handle (console_log (Rejected r)) s3). discriminate.
  - destruct (handle (console_log (Rejected r)) s2). discriminate.
Qed.

Lemma isValidate_not_write (evs : list (Event DbAction DbResult)) :
  Forall (fun ev => isValidate (called ev) = true) evs ->
  Forall (fun ev => isWrite (called ev) = false) evs.
Proof.
  apply List.Forall_impl. intros [a o]. cbn. destruct a; (discriminate || reflexivity).
Qed.

(** A rejected write, be it the construction or the save, is thrown again
    after it was logged, once, as the last call, and a rejected construction
    is not followed by a save; when no write is rejected nothing is logged,
    so an error of the validation is thrown without a log. *)
Theorem createOneDoc_logs_write_failures (modelName data : JsValue) (s : St) :
  let '(res, evs, _) := run handle (createOneDoc dataModels modelName data) s in
  (forall ev r,
     In ev evs -> isWrite (called ev) = true -> rejection ev = Some r ->
     res = Throws (Rejected r) /\
     List.filter isLog (map called evs) = [console_log (Rejected r)] /\
     exists pre o,
       evs = pre ++ [ev; existT (console_log (Rejected r)) o] /\
       Forall (fun e => rejection e = None) pre) /\
  ((forall ev, In ev evs -> isWrite (called ev) = true -> rejection ev = None) ->
   List.filter isLog (map called evs) = []).
Proof.
  rewrite createOneDoc_runs.
  pose proof (validatorOneDoc_calls modelName data s) as Hc.
  destruct (run handle (validatorOneDoc dataModels modelName data) s)
    as [[[[e|n d]|e] evs0] s1] eqn:Hv.
  - destruct Hc as (_ & Hval & _ & Hl). split; [|intros _; exact Hl].
    intros ev r Hin Hw. apply isValidate_not_write in Hval.
    rewrite List.Forall_forall in Hval. rewrite (Hval _ Hin) in Hw. discriminate Hw.
  - apply validatorOneDoc_validated in Hv
      as (-> & name & model & props & -> & Hn & Hm & Hd & _ & ->).
    destruct (handle (Model_new n data) s1) as [[doc|r0] s2];
      [destruct (handle (Document_save doc) s2) as [[saved|r0] s3]|];
      try (destruct (handle (console_log (Rejected r0)) _) as [o s4]); cbn; split.
    + intros ev r [<-|[<-|[<-|[]]]]; discriminate.
    + reflexivity.
    + intros ev r [<-|[<-|[<-|[<-|[]]]]] Hw Hr; try discriminate.
      injection Hr as <-. repeat split.
      eexists [_; _], o. split; [reflexivity|]. repeat constructor.
    + intros Hall. specialize (Hall _ (or_intror (or_intror (or_introl eq_refl))) eq_refl).
      discriminate Hall.
    + intros ev r [<-|[<-|[<-|[]]]] Hw Hr; try discriminate.
      injection Hr as <-. repeat split.
      eexists [_], o. split; [reflexivity|]. repeat constructor.
    + intros Hall. specialize (Hall _ (or_intror (or_introl eq_refl)) eq_refl).
      discriminate Hall.
  - destruct Hc as (_ & Hval & _ & Hl). split; [|intros _; exact Hl].
    intros ev r Hin Hw. apply isValidate_not_write in Hval.
    rewrite List.Forall_forall in Hval. rewrite (Hval _ Hin) in Hw. discriminate Hw.
Qed.

(** The run of the validator on a plain object whose keys are all allowed,
    under a name that resolves *)
Lemma validatorOneDoc_allowed_keys
    (name n : string) (model : Model) (props : list (string * JsValue)) (s : St) :
  processModelName name = Ret n ->
  dataModels !! n = Some model ->
  Forall (fun k => Array_includes (map fst (schema_obj model) ++ ["_id"]) k = true)
    (map fst props) ->
  let check := Model_validate n (JObject props) (map fst (schema_obj model)) in
  run handle (validatorOneDoc dataModels (JString name) (JObject props)) s
  = match handle check s with
    | (Yields tt, s1) =>
        (Returns (Validated n (JObject props)), [existT check (Yields tt)], s1)
    | (Rejects r, s1) =>
        (Returns (IsError (Rejected r)), [existT check (Rejects r)], s1)
    end.
Proof.
  intros En Hm Hk check. unfold validatorOneDoc. rewrite En. cbn [bind]. rewrite Hm.
  cbn [typeof isNull Array_isArray String.eqb Ascii.eqb Bool.eqb negb orb Object_keys].
  rewrite findOnlyUniqueElements_twice.
  apply filter_negb_nil in Hk. rewrite Hk. cbn. fold check.
  destruct (handle check s) as [[[]|r] s1]; reflexivity.
Qed.

(** When the name resolves, the keys of the record are schema fields or
    [_id], and the validation, the construction and the save all succeed,
    [createOneDoc] returns the saved document after exactly these three
    calls; the document is constructed from the record as it was given. *)
Theorem createOneDoc_persists
    (name n : string) (model : Model) (props : list (string * JsValue))
    (doc saved : JsValue) (s s1 s2 s3 : St) :
  processModelName name = Ret n ->
  dataModels !! n = Some model ->
  Forall (fun k => Array_includes (map fst (schema_obj model) ++ ["_id"]) k = true)
    (map fst props) ->
  handle (Model_validate n (JObject props) (map fst (schema_obj model))) s
  = (Yields tt, s1) ->
  handle (Model_new n (JObject props)) s1 = (Yields doc, s2) ->
  handle (Document_save doc) s2 = (Yields saved, s3) ->
  run handle (createOneDoc dataModels (JString name) (JObject props)) s
  = (Returns saved,
     [ existT (Model_validate n (JObject props) (map fst (schema_obj model))) (Yields tt);
       existT (Model_new n (JObject props)) (Yields doc);
       existT (Document_save doc) (Yields saved) ],
     s3).
Proof.
  intros En Hm Hk Hv Hnew Hsave.
  rewrite createOneDoc_runs, (validatorOneDoc_allowed_keys _ _ _ _ _ En Hm Hk).
  cbv zeta. rewrite Hv, Hnew, Hsave. reflexivity.
Qed.

(** Under a name that is not blank and does not resolve [createManyDocs]
    makes no batch insert: the member access on the missing model throws a
    TypeError inside the [try] block, and the only call is the logging of
    this error, which is thrown again. *)
Theorem createManyDocs_unresolved_throws
    (modelName : string) (c : ascii) (r : string) (dataArr : list JsValue) (s : St) :
  trim modelName = String c r ->
  dataModels !! capitalize (trim modelName) = None ->
  let '(res, evs, _) := run handle (createManyDocs dataModels modelName dataArr) s in
  exists message,
    res = Throws (TypeError message) /\
    map called evs = [console_log (TypeError message)].
Proof.
  intros _ Hm. unfold createManyDocs. rewrite Hm. cbn.
  destruct (handle _ s) as [o s1]. eexists. split; reflexivity.
Qed.

(** The second capitalisation of lines 37 and 38 changes nothing: a name
    that is not blank is looked up under [capitalize(modelName.trim())], the
    key [createManyDocs] uses, and a blank name throws. *)
Theorem processModelName_capitalize_trim (name : string) :
  processModelName name
  = match trim name with
    | EmptyString => Throw toUpperCase_of_undefined
    | String _ _ => Ret (capitalize (trim name))
    end.
Proof.
  unfold processModelName. destruct (trim name) as [|c r]; [reflexivity|].
  cbn [capitalize at0 slice1 toUpperCase].
  now rewrite append_one, toUpperCaseChar_idem.
Qed.

End CreateOperationDBMore.

(** Steps through a run of the action: the answers of the collaborators
    one after the other, the log last. *)
Ltac signup_cases handle :=
  repeat match goal with
  | |- context [handle ?a ?st] =>
      match a with Signup.console_error _ _ => fail 1 | _ => idtac end;
      destruct (handle a st) as [[?|?] ?]; cbn
  | |- context [Signup.destructure_id ?x] => destruct x; cbn
  end;
  repeat match goal with
  | |- context [handle ?a ?st] => destruct (handle a st) as [? ?]; cbn
  end.

(** ** More on [signUpAction] *)
Section SignupActionMore.
Import Zod Signup Calls.
Context `{Runtime} (emailDefaultData : list (string * JsValue)).
Context {St : Type} (handle : forall a, St -> Answer (SignupResult a) * St).

(** The validation returns one of its two objects. *)
Lemma validateSignupFormData_shape (formData : JsValue) (v : FormState) :
  validateSignupFormData formData = Returns v ->
  (exists d, v = passed d) \/ (exists errors, v = invalid errors).
Proof.
  unfold validateSignupFormData.
  destruct (safeParse signupSchema formData) as [[d|issues]|e]; intros E; simplify_eq;
    [left | right]; eexists; reflexivity.
Qed.

(** A form that does not pass never reaches a collaborator: the action
    returns the failure of the validation with its error object as it is,
    and calls nothing, not even the existence query. *)
Theorem signUpAction_invalid_form_no_calls
    (prevState : JsValue) (formData : list (string * JsValue)) (v : FormState) (s : St) :
  validateSignupFormData (Object_fromEntries formData) = Returns v ->
  success v = false ->
  run handle (signUpAction emailDefaultData prevState formData) s
  = (Returns (Some v), [], s) /\
  is_Some (error v).
Proof.
  intros Hv Hs. destruct (validateSignupFormData_shape _ _ Hv) as [[d ->]|[errors ->]];
    [discriminate Hs|].
  unfold signUpAction. rewrite Hv. cbn. split; [reflexivity | eauto].
Qed.

(** The existence query and the hashing run before the [try] block: when
    either is rejected the action throws the rejection, it does not return
    the generic failure, and it logs nothing and starts no step. *)
Theorem signUpAction_early_rejection_thrown
    (prevState : JsValue) (formData : list (string * JsValue)) (d : JsValue) (s : St) :
  validateSignupFormData (Object_fromEntries formData) = Returns (passed d) ->
  let query := User_exists (JObject [("email", getMember d "email")]) in
  let hashing := bcrypt_hash (getMember d "password") 10 in
  (forall r s1,
     handle query s = (Rejects r, s1) ->
     run handle (signUpAction emailDefaultData prevState formData) s
     = (Throws (Rejected r), [existT query (Rejects r)], s1)) /\
  (forall u s1 r s2,
     handle query s = (Yields u, s1) -> Boolean u = false ->
     handle hashing s1 = (Rejects r, s2) ->
     run handle (signUpAction emailDefaultData prevState formData) s
     = (Throws (Rejected r), [existT query (Yields u); existT hashing (Rejects r)], s2)).
Proof.
  intros Hv query hashing. unfold signUpAction. rewrite Hv.
  cbn -[signupSteps]. fold query. split.
  - intros r s1 ->. reflexivity.
  - intros u s1 r s2 -> Hu. cbn -[signupSteps]. rewrite Hu. cbn -[signupSteps].
    fold hashing. intros ->. reflexivity.
Qed.

Lemma getProp_setProp_eq (props : list (string * JsValue)) (k : string) (v : JsValue) :
  getProp (setProp props k v) k = v.
Proof.
  induction props as [|[k' v'] rest IH]; cbn.
  - now rewrite String.eqb_refl.
  - destruct (String.eqb k' k) eqn:E; cbn; rewrite E; [reflexivity | exact IH].
Qed.

Lemma getProp_setProp_ne (props : list (string * JsValue)) (k k' : string) (v : JsValue) :
  k <> k' -> getProp (setProp props k v) k' = getProp props k'.
Proof.
  intros Hne. induction props as [|[k0 v0] rest IH]; cbn.
  - apply String.eqb_neq in Hne. now rewrite Hne.
  - destruct (String.eqb k0 k) eqn:E; cbn.
    + apply String.eqb_eq in E. subst k0.
      apply String.eqb_neq in Hne. now rewrite Hne.
    + now rewrite IH.
Qed.

Lemma mergeObjectSync_object (pairs : list (string * ParseReturn * bool))
    (dirty : bool) (finalObject : list (string * JsValue)) (v : JsValue) :
  mergeObjectSync dirty pairs finalObject = OK v -> exists o, v = JObject o.
Proof.
  revert dirty finalObject. induction pairs as [|[[key value] alwaysSet] rest IH];
    intros dirty finalObject; cbn.
  - destruct dirty; intros E; simplify_eq. eauto.
  - destruct value; [apply IH | apply IH | discriminate].
Qed.

(** The data of a validation that passed is a plain object. *)
Lemma validateSignupFormData_passed_object (formData d : JsValue) :
  validateSignupFormData formData = Returns (passed d) -> exists o, d = JObject o.
Proof.
  unfold validateSignupFormData, safeParse, signupSchema, refine, z_object.
  destruct formData as [| | | | | |props]; try discriminate.
  destruct (parseShape signupShape props []) as [[pairs issues]|e]; [|discriminate].
  destruct (mergeObjectSync false pairs []) as [v|v|] eqn:Em;
    [|destruct (strictEquals _ _); discriminate | discriminate].
  apply mergeObjectSync_object in Em as [o ->].
  destruct (strictEquals _ _); [|discriminate].
  intros E. injection E as <-. eauto.
Qed.

(** The action reports success only after all eight calls were answered,
    in the order of the source: the existence query came back falsy, the
    password was hashed with cost 10, the user is created without a
    password, the account with the hash and the identifier of the new user,
    the counter is raised by one, and the welcome email goes to the
    validated address with the rendered template. *)
Theorem signUpAction_success_calls
    (prevState : JsValue) (formData : list (string * JsValue)) (s : St) :
  let '(res, evs, _) := run handle (signUpAction emailDefaultData prevState formData) s in
  forall r, res = Returns (Some r) -> success r = true ->
    r = created /\
    exists props u hash a1 user a3 a4 html a6,
      validateSignupFormData (Object_fromEntries formData)
      = Returns (passed (JObject props)) /\
      Boolean u = false /\
      evs =
      [ existT (User_exists (JObject [("email", getProp props "email")])) (Yields u);
        existT (bcrypt_hash (getProp props "password") 10) (Yields hash);
        existT createAnalytics (Yields a1);
        existT (createUser (JObject
                  [ ("firstName", getProp props "firstname");
                    ("lastName", getProp props "lastname");
                    ("email", getProp props "email");
                    ("phone", getProp props "phone") ])) (Yields user);
        existT (createAccount (JObject
                  [ ("userId", getMember user "_id");
                    ("provider", JString "credentials");
                    ("providerAccountId", getMember user "_id");
                    ("type", JString "credentials");
                    ("password", hash) ])) (Yields a3);
        existT (incOrDecrementAnalytics
                  (JObject [("totalUsersSignedUp", JNumber 1%float)])) (Yields a4);
        existT (newUserSignupEmailTemplate (JObject
                  (setProp emailDefaultData "main"
                     (JObject [("firstName", getProp props "firstname")]))))
          (Yields html);
        existT (sendEmail (JArray [JObject [("Email", getProp props "email")]])
                  (JString "Welcome to Golobe") html) (Yields a6) ].
Proof.
  unfold signUpAction.
  destruct (validateSignupFormData (Object_fromEntries formData)) as [v|e] eqn:Hv;
    [|cbn; discriminate].
  destruct (validateSignupFormData_shape _ _ Hv) as [[d ->]|[errors ->]].
  2:{ cbn. intros r E Hs. injection E as <-. discriminate Hs. }
  destruct (validateSignupFormData_passed_object _ _ Hv) as [props ->].
  cbn -[signupSteps].
  destruct (handle (User_exists _) s) as [[u|r0] s1]; cbn -[signupSteps]; [|discriminate].
  destruct (Boolean u) eqn:Hu; cbn -[signupSteps].
  { intros r E Hs. injection E as <-. discriminate Hs. }
  destruct (handle (bcrypt_hash _ _) s1) as [[hash|r1] s2]; cbn -[signupSteps];
    [|discriminate].
  unfold signupSteps. cbn.
  rewrite !getProp_setProp_eq, !getProp_setProp_ne by discriminate.
  signup_cases handle;
    intros r E Hs; injection E as <-; try discriminate Hs;
    (split; [reflexivity|]);
    lazymatch goal with
    | |- context [ [existT _ (Yields ?x1); existT _ (Yields ?x2); existT _ (Yields ?x3);
                    existT _ (Yields ?x4); existT _ (Yields ?x5); existT _ (Yields ?x6);
                    existT _ (Yields ?x7); existT _ (Yields ?x8)] ] =>
        exists props, x1, x2, x3, x4, x5, x6, x7, x8
    end;
    (split; [reflexivity|]); (split; [exact Hu|]); reflexivity.
Qed.

(** In every run, the user record is created from the two names, the email
    and the phone only, without any password, and the password an account
    is created with is the value the hashing call came back with. *)
Theorem signUpAction_password_only_hashed
    (prevState : JsValue) (formData : list (string * JsValue)) (s : St) :
  let '(_, evs, _) := run handle (signUpAction emailDefaultData prevState formData) s in
  forall ev, In ev evs ->
    (forall userData, called ev = createUser userData ->
       Object_keys userData = Some ["firstName"; "lastName"; "email"; "phone"]) /\
    (forall accountData, called ev = createAccount accountData ->
       exists hashing pw,
         In hashing evs /\ called hashing = bcrypt_hash pw 10 /\
         yielded hashing = Some (getMember accountData "password")).
Proof.
  unfold signUpAction.
  destruct (validateSignupFormData (Object_fromEntries formData)) as [v|e] eqn:Hv;
    [|cbn; intros ? []].
  destruct (validateSignupFormData_shape _ _ Hv) as [[d ->]|[errors ->]];
    [|cbn; intros ? []].
  destruct (validateSignupFormData_passed_object _ _ Hv) as [props ->].
  cbn -[signupSteps].
  destruct (handle (User_exists _) s) as [[u|r0] s1]; cbn -[signupSteps];
    [|intros ? [<-|[]]; split; intros ?; discriminate].
  destruct (Boolean u); cbn -[signupSteps];
    [intros ? [<-|[]]; split; intros ?; discriminate|].
  destruct (handle (bcrypt_hash _ _) s1) as [[hash|r1] s2]; cbn -[signupSteps];
    [|intros ? [<-|[<-|[]]]; split; intros ?; discriminate].
  unfold signupSteps. cbn.
  rewrite !getProp_setProp_eq, !getProp_setProp_ne by discriminate.
  signup_cases handle;
    intros ev Hin;
    repeat (destruct Hin as [<-|Hin];
      [split; intros arg Harg;
       first
         [ discriminate Harg
         | injection Harg as <-;
           first
             [ reflexivity
             | eexists (existT (bcrypt_hash (getProp props "password") 10) (Yields hash)), _;
               (split; [right; left; reflexivity|]); split; reflexivity ] ]|]);
    contradiction.
Qed.

(** When the creation of the user comes back with [null] or [undefined],
    the destructuring of [_id] throws inside the [try] block: the action
    returns the generic failure, logs the TypeError last, and creates no
    account. *)
Theorem signUpAction_nullish_user
    (prevState : JsValue) (formData : list (string * JsValue)) (s : St) :
  let '(res, evs, _) := run handle (signUpAction emailDefaultData prevState formData) s in
  forall ev, In ev evs ->
    stepOf (called ev) = Some UserCreation ->
    yielded ev = Some JNull \/ yielded ev = Some JUndefined ->
    res = Returns (Some genericFailure) /\
    Forall (fun e => stepOf (called e) <> Some AccountCreation) evs /\
    exists message pre o,
      evs = pre ++ [ev; existT (console_error "Signup error:" (TypeError message)) o].
Proof.
  unfold signUpAction.
  destruct (validateSignupFormData (Object_fromEntries formData)) as [v|e] eqn:Hv;
    [|cbn; intros ? []].
  destruct (validateSignupFormData_shape _ _ Hv) as [[d ->]|[errors ->]];
    [|cbn; intros ? []].
  cbn -[signupSteps].
  destruct (handle (User_exists _) s) as [[u|r0] s1]; cbn -[signupSteps];
    [|intros ? [<-|[]]; discriminate].
  destruct (Boolean u); cbn -[signupSteps]; [intros ? [<-|[]]; discriminate|].
  destruct (handle (bcrypt_hash _ _) s1) as [[hash|r1] s2]; cbn -[signupSteps];
    [|intros ? [<-|[<-|[]]]; discriminate].
  unfold signupSteps. cbn.
  signup_cases handle;
    intros ev Hin Hstep Hy;
    repeat (destruct Hin as [<-|Hin]; [try discriminate Hstep|]);
    try contradiction;
    destruct Hy as [Hy|Hy]; try discriminate Hy;
    (split; [reflexivity|]);
    (split; [repeat constructor; discriminate|]);
    eexists _, [_; _; _], _; reflexivity.
Qed.

End SignupActionMore.

(** ** More on [signupSchema] and [validateSignupFormData] *)
Section SignupSchemaMore.
Import Zod Signup Calls.
Context `{Runtime}.

Lemma parseString_OK (checks : list ZodStringCheck) (input : JsValue) (p : list string)
    (x : JsValue) :
  (parseString checks input p).1 = OK x ->
  exists data, input = JString data /\
    (runChecks checks data p).1.1 = false /\ x = JString (runChecks checks data p).1.2.
Proof.
  unfold parseString. destruct input as [| | | |data| |]; try discriminate.
  destruct (runChecks checks data p) as [[dirty data'] issues] eqn:Er. cbn.
  destruct dirty; [discriminate|]. intros E. injection E as <-.
  exists data. rewrite Er. auto.
Qed.

Lemma length_ltb_1_inv (s : string) : (String.length s <? 1) = false -> s <> EmptyString.
Proof. destruct s; [discriminate | discriminate]. Qed.

(** What stands behind a validation that passed: the six text keys hold
    strings that pass their checks, the schema of [phone] came back [OK],
    and the data are the checked values in the order of the shape. *)
Lemma validateSignupFormData_passed_inv (props : list (string * JsValue)) (d : JsValue) :
  validateSignupFormData (JObject props) = Returns (passed d) ->
  exists email pw fn ln terms v7 I7,
    textFields props email pw pw fn ln terms /\
    trim email <> EmptyString /\ emailRegex_test (trim email) = true /\
    8 <= String.length pw /\
    trim fn <> EmptyString /\ trim ln <> EmptyString /\
    includes "on" terms = true /\
    phoneField (getProp props "phone") ["phone"] = Returns (OK v7, I7) /\
    d = JObject
          ([ ("email", JString (trim email)); ("password", JString pw);
             ("confirmPassword", JString pw); ("firstname", JString (trim fn));
             ("lastname", JString (trim ln)); ("acceptTerms", JString terms) ]
           ++ match v7 with
              | JUndefined => if hasProp props "phone" then [("phone", JUndefined)] else []
              | _ => [("phone", v7)]
              end).
Proof.
  unfold validateSignupFormData, safeParse, signupSchema, refine.
  rewrite z_object_signupShape_issues. cbv zeta.
  destruct (phoneField (getProp props "phone") ["phone"]) as [[r7 I7]|e] eqn:E7;
    [|discriminate].
  destruct (mergeObjectSync _ _ _) as [v|v|] eqn:Em;
    [|destruct (strictEquals _ _); discriminate | discriminate].
  pose proof (mergeObjectSync_OK _ _ _ _ Em) as [_ Hall].
  rewrite !Forall_cons in Hall. cbn [fst snd] in Hall.
  destruct Hall as ([x1 H1] & [x2 H2] & [x3 H3] & [x4 H4] & [x5 H5] & [x6 H6] & [v7 ->] & _).
  rewrite H1, H2, H3, H4, H5, H6 in Em.
  apply parseString_OK in H1 as (email & Ee & D1 & ->).
  apply parseString_OK in H2 as (pw & Ep & D2 & ->).
  apply parseString_OK in H3 as (cpw & Ec & D3 & ->).
  apply parseString_OK in H4 as (fn & Ef & D4 & ->).
  apply parseString_OK in H5 as (ln & El & D5 & ->).
  apply parseString_OK in H6 as (terms & Et & D6 & ->).
  cbn [runChecks emailChecks passwordChecks confirmPasswordChecks firstnameChecks
       lastnameChecks acceptTermsChecks fst snd] in D1, D2, D3, D4, D5, D6, Em.
  cbn in Em.
  repeat match goal with
  | Hx : _ || _ = false |- _ => apply orb_false_elim in Hx; destruct Hx
  | Hx : negb _ = false |- _ => apply negb_false_iff in Hx
  | Hx : (String.length _ <? 1) = false |- _ => apply length_ltb_1_inv in Hx
  | Hx : (String.length _ <? 8) = false |- _ => apply Nat.ltb_ge in Hx
  | Hx : false = false |- _ => clear Hx
  end.
  injection Em as <-.
  destruct (strictEquals _ _) eqn:Hs; [|discriminate].
  assert (Hpw : String.eqb pw cpw = true)
    by (destruct v7, (hasProp props "phone"); exact Hs).
  apply String.eqb_eq in Hpw. subst cpw.
  intros E. injection E as <-.
  exists email, pw, fn, ln, terms, v7, I7.
  repeat (split; [first [assumption | reflexivity | (repeat split; assumption)]|]).
  destruct v7, (hasProp props "phone"); reflexivity.
Qed.

(** A form passes only when its six text inputs are strings, the email is
    not blank and has the form of an address once trimmed, the password has
    at least eight code units and the confirmation is the same string, the
    two names are not blank, and [on] occurs in the terms value. *)
Theorem validateSignupFormData_sound (props : list (string * JsValue)) (d : JsValue) :
  validateSignupFormData (JObject props) = Returns (passed d) ->
  exists email pw fn ln terms,
    textFields props email pw pw fn ln terms /\
    trim email <> EmptyString /\ emailRegex_test (trim email) = true /\
    8 <= String.length pw /\
    trim fn <> EmptyString /\ trim ln <> EmptyString /\
    includes "on" terms = true.
Proof.
  intros Hv.
  destruct (validateSignupFormData_passed_inv _ _ Hv)
    as (email & pw & fn & ln & terms & v7 & I7 & Ht & H1 & H2 & H3 & H4 & H5 & H6 & _).
  exists email, pw, fn, ln, terms. auto 10.
Qed.

(** The data of a form that passed hold the keys of the schema only, in its
    order, whatever other keys the form has: the email and the two names
    trimmed, the password and its confirmation as they were typed, the terms
    value, and then at most [phone]. *)
Theorem validateSignupFormData_data (props : list (string * JsValue)) (d : JsValue) :
  validateSignupFormData (JObject props) = Returns (passed d) ->
  exists email pw fn ln terms phone,
    textFields props email pw pw fn ln terms /\
    d = JObject
          ([ ("email", JString (trim email)); ("password", JString pw);
             ("confirmPassword", JString pw); ("firstname", JString (trim fn));
             ("lastname", JString (trim ln)); ("acceptTerms", JString terms) ]
           ++ phone) /\
    (phone = [] \/ exists v, phone = [("phone", v)]).
Proof.
  intros Hv.
  destruct (validateSignupFormData_passed_inv _ _ Hv)
    as (email & pw & fn & ln & terms & v7 & I7 & Ht & _ & _ & _ & _ & _ & _ & _ & ->).
  exists email, pw, fn, ln, terms. eexists. split; [exact Ht|]. split; [reflexivity|].
  destruct v7, (hasProp props "phone"); eauto.
Qed.

(** What the schema of [phone] lets through: nothing, or an object of a
    number made of digits and a dial code that is not empty, both trimmed,
    and no other key. *)
Lemma phoneField_OK_inv (input v : JsValue) (p : list string) (issues : list ZodIssue) :
  phoneField input p = Returns (OK v, issues) ->
  v = JUndefined \/
  exists number dialCode,
    v = JObject [("number", JString number); ("dialCode", JString dialCode)] /\
    test_digits number = true /\ dialCode <> EmptyString.
Proof.
  assert (Hout : forall x issues',
    optional phoneSchema x p = Returns (OK v, issues') ->
    v = JUndefined \/
    exists number dialCode,
      v = JObject [("number", JString number); ("dialCode", JString dialCode)] /\
      test_digits number = true /\ dialCode <> EmptyString).
  { intros x issues'. unfold optional, phoneSchema, z_object, z_string.
    destruct x as [| | | | | |obj]; cbn -[parseString mergeObjectSync];
      try (intros E; simplify_eq; auto; fail).
    destruct (parseString _ (getProp obj "number") _) as [r1 i1] eqn:E1.
    destruct (parseString _ (getProp obj "dialCode") _) as [r2 i2] eqn:E2.
    cbn -[parseString mergeObjectSync]. intros E. injection E as Em _.
    destruct r1 as [x1|x1|], r2 as [x2|x2|]; try discriminate Em.
    apply (f_equal fst) in E1, E2. cbn [fst] in E1, E2.
    apply parseString_OK in E1 as (n & _ & D1 & ->).
    apply parseString_OK in E2 as (c & _ & D2 & ->).
    cbn [runChecks fst snd] in D1, D2, Em.
    repeat match goal with
    | Hx : _ || _ = false |- _ => apply orb_false_elim in Hx; destruct Hx
    | Hx : negb _ = false |- _ => apply negb_false_iff in Hx
    | Hx : (String.length _ <? 1) = false |- _ => apply length_ltb_1_inv in Hx
    | Hx : false = false |- _ => clear Hx
    end.
    cbn in Em. injection Em as <-. right. eauto. }
  unfold phoneField, pipe, transform, optional at 1, z_string.
  destruct input as [| | | |s| |]; cbn;
    try (intros E; simplify_eq; auto; fail);
    try (intros E; apply (Hout _ _ E)).
  destruct (phoneTransform (JString s)) as [x|e]; [|discriminate].
  destruct (optional phoneSchema x p) as [[r' issues']|e] eqn:E; [|discriminate].
  intros E'. simplify_eq. apply (Hout _ _ E).
Qed.

(** The phone of a form that passed is [undefined], or an object of exactly
    a number made of digits only and a dial code that is not empty. *)
Theorem validateSignupFormData_phone (props : list (string * JsValue)) (d : JsValue) :
  validateSignupFormData (JObject props) = Returns (passed d) ->
  getMember d "phone" = JUndefined \/
  exists number dialCode,
    getMember d "phone"
    = JObject [("number", JString number); ("dialCode", JString dialCode)] /\
    test_digits number = true /\ dialCode <> EmptyString.
Proof.
  intros Hv.
  destruct (validateSignupFormData_passed_inv _ _ Hv)
    as (email & pw & fn & ln & terms & v7 & I7 & _ & _ & _ & _ & _ & _ & _ & E7 & ->).
  destruct (phoneField_OK_inv _ _ _ _ E7) as [->|(number & dialCode & -> & Hn & Hc)].
  - left. destruct (hasProp props "phone"); reflexivity.
  - right. exists number, dialCode. auto.
Qed.

(** The error object holds, under a key, the message of the last issue
    filed under it. *)
Lemma collectErrors_lookup_last (issues : list ZodIssue) (key : string) :
  collectErrors issues !! key
  = last (map Zod.message (List.filter (fun i => String.eqb (path0 i) key) issues)).
Proof.
  induction issues as [|i issues IH] using rev_ind; [reflexivity|].
  rewrite collectErrors_snoc, List.filter_app, List.map_app. cbn [List.filter].
  destruct (String.eqb (path0 i) key) eqn:E.
  - apply String.eqb_eq in E. subst key. rewrite lookup_insert_eq.
    cbn [map]. now rewrite last_snoc.
  - apply String.eqb_neq in E. rewrite lookup_insert_ne by exact E.
    cbn [map]. now rewrite app_nil_r.
Qed.

(** When the validation fails, each key of the error object carries the
    message of the last issue whose path starts with the key: a later issue
    of a field replaces an earlier one, and the issues of [number] and
    [dialCode] all land under [phone]. *)
Theorem validateSignupFormData_last_issue_wins (formData : JsValue) (v : FormState) :
  validateSignupFormData formData = Returns v ->
  success v = false ->
  exists issues errors,
    safeParse signupSchema formData = Returns (SafeParseError issues) /\
    v = invalid errors /\
    forall key,
      errors !! key
      = last (map Zod.message (List.filter (fun i => String.eqb (path0 i) key) issues)).
Proof.
  unfold validateSignupFormData.
  destruct (safeParse signupSchema formData) as [[d|issues]|e]; intros E Hs; simplify_eq.
  exists issues, (collectErrors issues). repeat split. apply collectErrors_lookup_last.
Qed.

Lemma collectErrors_lookup_path (issues : list ZodIssue) (key : string) :
  is_Some (collectErrors issues !! key) -> exists i, In i issues /\ path0 i = key.
Proof.
  rewrite collectErrors_lookup_last.
  induction issues as [|i issues IH]; cbn; [intros [? ?]; discriminate|].
  destruct (String.eqb (path0 i) key) eqn:E.
  - intros _. apply String.eqb_eq in E. eauto.
  - intros Hs. destruct (IH Hs) as (j & Hj & Hp). eauto.
Qed.

Lemma collectErrors_nonempty (issues : list ZodIssue) :
  issues <> [] -> collectErrors issues <> ∅.
Proof.
  destruct issues as [|i issues _] using rev_ind; [congruence|].
  intros _. rewrite collectErrors_snoc. apply insert_non_empty.
Qed.

Lemma runChecks_no_issue (checks : list ZodStringCheck) (data : string) (p : list string) :
  (runChecks checks data p).2 = [] -> (runChecks checks data p).1.1 = false.
Proof.
  revert data. induction checks as [|check rest IH]; intros data; cbn; [reflexivity|].
  destruct check as [|n m|m|re m]; cbn;
    match goal with |- context [runChecks rest ?x p] =>
      specialize (IH x); destruct (runChecks rest x p) as [[dirty data2] issues] end;
    cbn in *; try exact IH;
    match goal with |- context [if ?b then _ else _] => destruct b end;
    cbn; solve [exact IH | discriminate].
Qed.

Lemma parseString_no_issue (checks : list ZodStringCheck) (input : JsValue)
    (p : list string) :
  (parseString checks input p).2 = [] -> exists x, (parseString checks input p).1 = OK x.
Proof.
  unfold parseString. destruct input as [| | | |data| |]; try discriminate.
  pose proof (runChecks_no_issue checks data p) as Hd.
  destruct (runChecks checks data p) as [[dirty data'] issues]. cbn in *.
  intros ->. rewrite Hd by reflexivity. eauto.
Qed.

Lemma mergeObjectSync_all_OK (pairs : list (string * ParseReturn * bool))
    (finalObject : list (string * JsValue)) :
  Forall (fun p => exists x, p.1.2 = OK x) pairs ->
  exists o, mergeObjectSync false pairs finalObject = OK (JObject o).
Proof.
  revert finalObject. induction pairs as [|[[key value] alwaysSet] rest IH];
    intros finalObject Hall; cbn; [eauto|].
  inversion Hall as [|? ? [x Hx] Hrest]; subst. cbn in Hx. subst value.
  apply IH, Hrest.
Qed.

Lemma phoneField_no_issue (input : JsValue) (p : list string) (r : ParseReturn) :
  phoneField input p = Returns (r, []) -> exists x, r = OK x.
Proof.
  assert (Hout : forall x r',
    optional phoneSchema x p = Returns (r', []) -> exists y, r' = OK y).
  { intros x r'. unfold optional, phoneSchema, z_object, z_string.
    destruct x as [| | | | | |obj]; cbn -[parseString mergeObjectSync];
      try (intros E; simplify_eq; eauto; fail).
    pose proof (parseString_no_issue
      [trim_; regex_ test_digits "Invalid phone number. Only numbers are allowed"]
      (getProp obj "number") (p ++ ["number"])) as N1.
    pose proof (parseString_no_issue [trim_; min_ 1 "Dial code is required"]
      (getProp obj "dialCode") (p ++ ["dialCode"])) as N2.
    destruct (parseString _ (getProp obj "number") _) as [r1 i1].
    destruct (parseString _ (getProp obj "dialCode") _) as [r2 i2].
    cbn -[mergeObjectSync] in *. intros E. injection E as Em Hi.
    apply app_eq_nil in Hi as [-> Hi]. apply app_eq_nil in Hi as [-> _].
    destruct (N1 eq_refl) as [x1 ->]. destruct (N2 eq_refl) as [x2 ->].
    rewrite <- Em. destruct x1, x2; cbn; eauto. }
  unfold phoneField, pipe, transform, optional at 1, z_string.
  destruct input as [| | | |s| |]; cbn;
    try (intros E; simplify_eq; eauto; fail);
    try (intros E; apply (Hout _ _ E)).
  destruct (phoneTransform (JString s)) as [x|e]; [|discriminate].
  destruct (optional phoneSchema x p) as [[r' issues']|e] eqn:E; [|discriminate].
  intros E'. simplify_eq. apply (Hout _ _ E).
Qed.

(** When a form does not pass, the error object is not empty, and each of
    its keys is one of the seven keys of the schema. *)
Theorem validateSignupFormData_errors_name_fields
    (props : list (string * JsValue)) (errors : gmap string string) :
  validateSignupFormData (JObject props) = Returns (invalid errors) ->
  errors <> ∅ /\
  forall key, is_Some (errors !! key) ->
    In key ["email"; "password"; "confirmPassword"; "firstname"; "lastname";
            "acceptTerms"; "phone"].
Proof.
  unfold validateSignupFormData, safeParse, signupSchema, refine.
  rewrite z_object_signupShape_issues. cbv zeta.
  destruct (phoneField (getProp props "phone") ["phone"]) as [[r7 I7]|e] eqn:E7;
    [|discriminate].
  pose proof (phoneField_paths _ _ _ E7) as H7.
  pose proof (parseString_paths emailChecks (getProp props "email") ["email"]) as H1.
  pose proof (parseString_paths passwordChecks (getProp props "password") ["password"]) as H2.
  pose proof (parseString_paths confirmPasswordChecks (getProp props "confirmPassword")
                ["confirmPassword"]) as H3.
  pose proof (parseString_paths firstnameChecks (getProp props "firstname") ["firstname"]) as H4.
  pose proof (parseString_paths lastnameChecks (getProp props "lastname") ["lastname"]) as H5.
  pose proof (parseString_paths acceptTermsChecks (getProp props "acceptTerms")
                ["acceptTerms"]) as H6.
  apply Forall_path0 in H1, H2, H3, H4, H5, H6.
  pose proof (parseString_no_issue emailChecks (getProp props "email") ["email"]) as N1.
  pose proof (parseString_no_issue passwordChecks (getProp props "password") ["password"]) as N2.
  pose proof (parseString_no_issue confirmPasswordChecks (getProp props "confirmPassword")
                ["confirmPassword"]) as N3.
  pose proof (parseString_no_issue firstnameChecks (getProp props "firstname") ["firstname"]) as N4.
  pose proof (parseString_no_issue lastnameChecks (getProp props "lastname") ["lastname"]) as N5.
  pose proof (parseString_no_issue acceptTermsChecks (getProp props "acceptTerms")
                ["acceptTerms"]) as N6.
  destruct (parseString emailChecks _ _) as [r1 I1],
    (parseString passwordChecks _ _) as [r2 I2],
    (parseString confirmPasswordChecks _ _) as [r3 I3],
    (parseString firstnameChecks _ _) as [r4 I4],
    (parseString lastnameChecks _ _) as [r5 I5],
    (parseString acceptTermsChecks _ _) as [r6 I6].
  cbn [fst snd] in *.
  set (issues := I1 ++ I2 ++ I3 ++ I4 ++ I5 ++ I6 ++ I7 ++ []).
  set (fields := ["email"; "password"; "confirmPassword"; "firstname"; "lastname";
                  "acceptTerms"; "phone"]).
  assert (Hpaths : Forall (fun i => In (path0 i) fields) issues).
  { subst issues. rewrite !Forall_app. repeat split;
      try (eapply List.Forall_impl; [|eassumption]; intros i ->; unfold fields; cbn; auto 10).
    apply List.Forall_nil. }
  assert (Hkeys : forall tail,
    Forall (fun i => In (path0 i) fields) tail ->
    forall key, is_Some (collectErrors (issues ++ tail) !! key) -> In key fields).
  { intros tail Htail key Hs. apply collectErrors_lookup_path in Hs as (i & Hi & <-).
    assert (Hall : Forall (fun i => In (path0 i) fields) (issues ++ tail))
      by (rewrite Forall_app; auto).
    rewrite List.Forall_forall in Hall. auto. }
  assert (Hrefine : Forall (fun i => In (path0 i) fields)
            [{| path := [] ++ ["confirmPassword"]; Zod.message := "Passwords do not match" |}]).
  { apply List.Forall_cons; [|apply List.Forall_nil]. unfold fields. cbn. auto 10. }
  assert (Hsome : forall dirty x,
    mergeObjectSync false
      [ ("email", r1, hasProp props "email"); ("password", r2, hasProp props "password");
        ("confirmPassword", r3, hasProp props "confirmPassword");
        ("firstname", r4, hasProp props "firstname");
        ("lastname", r5, hasProp props "lastname");
        ("acceptTerms", r6, hasProp props "acceptTerms");
        ("phone", r7, hasProp props "phone") ] [] = (if dirty : bool then DIRTY x else INVALID) ->
    issues <> []).
  { intros dirty x Em Hnil. subst issues.
    repeat (apply app_eq_nil in Hnil as [? Hnil]). subst.
    destruct (N1 eq_refl) as [x1 ->], (N2 eq_refl) as [x2 ->], (N3 eq_refl) as [x3 ->],
      (N4 eq_refl) as [x4 ->], (N5 eq_refl) as [x5 ->], (N6 eq_refl) as [x6 ->].
    destruct (phoneField_no_issue _ _ _ E7) as [x7 ->].
    edestruct (mergeObjectSync_all_OK) as [o Ho]; [|rewrite Ho in Em; destruct dirty; discriminate Em].
    repeat constructor; cbn; eauto. }
  destruct (mergeObjectSync _ _ _) as [x|x|] eqn:Em.
  - destruct (strictEquals _ _); intros E; simplify_eq. split.
    + apply collectErrors_nonempty. destruct issues; discriminate.
    + apply (Hkeys _ Hrefine).
  - pose proof (Hsome true x eq_refl) as Hne.
    destruct (strictEquals _ _); intros E; simplify_eq; split.
    + apply collectErrors_nonempty, Hne.
    + intros key. rewrite <- (app_nil_r issues). apply (Hkeys []). constructor.
    + apply collectErrors_nonempty. destruct issues; discriminate.
    + apply (Hkeys _ Hrefine).
  - pose proof (Hsome false JNull eq_refl) as Hne.
    intros E; simplify_eq; split.
    + apply collectErrors_nonempty, Hne.
    + intros key. rewrite <- (app_nil_r issues). apply (Hkeys []). constructor.
Qed.

End SignupSchemaMore.

(** ** The values [signUpAction] hands to its collaborators *)
Section SignupActionValues.
Import Zod Signup Calls.
Context `{Runtime} (emailDefaultData : list (string * JsValue)).
Context {St : Type} (handle : forall a, St -> Answer (SignupResult a) * St).

(** In every run, the existence query, the new user and the welcome email
    carry the email of the form trimmed, the user carries the two names
    trimmed, and the hashing is given the password as it was typed, with
    cost 10. *)
Theorem signUpAction_uses_checked_values
    (prevState : JsValue) (formData : list (string * JsValue)) (s : St) :
  let '(_, evs, _) := run handle (signUpAction emailDefaultData prevState formData) s in
  forall ev, In ev evs ->
    exists email pw fn ln,
      getMember (Object_fromEntries formData) "email" = JString email /\
      getMember (Object_fromEntries formData) "password" = JString pw /\
      getMember (Object_fromEntries formData) "firstname" = JString fn /\
      getMember (Object_fromEntries formData) "lastname" = JString ln /\
      (forall f, called ev = User_exists f ->
         f = JObject [("email", JString (trim email))]) /\
      (forall x n, called ev = bcrypt_hash x n -> x = JString pw /\ n = 10) /\
      (forall userData, called ev = createUser userData ->
         getMember userData "firstName" = JString (trim fn) /\
         getMember userData "lastName" = JString (trim ln) /\
         getMember userData "email" = JString (trim email)) /\
      (forall recipients subject html, called ev = sendEmail recipients subject html ->
         recipients = JArray [JObject [("Email", JString (trim email))]] /\
         subject = JString "Welcome to Golobe").
Proof.
  unfold signUpAction.
  destruct (validateSignupFormData (Object_fromEntries formData)) as [v|e] eqn:Hv;
    [|cbn; intros ? []].
  destruct (validateSignupFormData_shape _ _ Hv) as [[d ->]|[errors ->]];
    [|cbn; intros ? []].
  unfold Object_fromEntries in *.
  destruct (validateSignupFormData_passed_inv _ _ Hv)
    as (email & pw & fn & ln & terms & v7 & I7 & (E1 & E2 & _ & E4 & E5 & _) & _ & _ & _ & _
        & _ & _ & _ & ->).
  cbn -[signupSteps].
  assert (Hq : forall ev : Event SignupAction SignupResult,
    (exists o, ev = existT (User_exists (JObject [("email", JString (trim email))])) o) \/
    (exists o, ev = existT (bcrypt_hash (JString pw) 10) o) \/
    (exists o, ev = existT createAnalytics o) \/
    (exists phone o, ev = existT (createUser (JObject
        [ ("firstName", JString (trim fn)); ("lastName", JString (trim ln));
          ("email", JString (trim email)); ("phone", phone) ])) o) \/
    (exists x o, ev = existT (createAccount x) o) \/
    (exists x o, ev = existT (incOrDecrementAnalytics x) o) \/
    (exists x o, ev = existT (newUserSignupEmailTemplate x) o) \/
    (exists html o, ev = existT (sendEmail
        (JArray [JObject [("Email", JString (trim email))]])
        (JString "Welcome to Golobe") html) o) \/
    (exists l e o, ev = existT (console_error l e) o) ->
    exists email0 pw0 fn0 ln0,
      getProp (fold_left (fun o kv => setProp o kv.1 kv.2) formData []) "email"
      = JString email0 /\
      getProp (fold_left (fun o kv => setProp o kv.1 kv.2) formData []) "password"
      = JString pw0 /\
      getProp (fold_left (fun o kv => setProp o kv.1 kv.2) formData []) "firstname"
      = JString fn0 /\
      getProp (fold_left (fun o kv => setProp o kv.1 kv.2) formData []) "lastname"
      = JString ln0 /\
      (forall f, called ev = User_exists f ->
         f = JObject [("email", JString (trim email0))]) /\
      (forall x n, called ev = bcrypt_hash x n -> x = JString pw0 /\ n = 10) /\
      (forall userData, called ev = createUser userData ->
         getMember userData "firstName" = JString (trim fn0) /\
         getMember userData "lastName" = JString (trim ln0) /\
         getMember userData "email" = JString (trim email0)) /\
      (forall recipients subject html, called ev = sendEmail recipients subject html ->
         recipients = JArray [JObject [("Email", JString (trim email0))]] /\
         subject = JString "Welcome to Golobe")).
  { intros ev Hev. exists email, pw, fn, ln.
    repeat (split; [assumption|]).
    decompose [or ex] Hev; subst ev; cbn;
      repeat split; intros; simplify_eq; auto. }
  destruct (handle (User_exists _) s) as [[u|r0] s1]; cbn -[signupSteps];
    [|intros ? [<-|[]]; apply Hq; eauto 20].
  destruct (Boolean u); cbn -[signupSteps];
    [intros ? [<-|[]]; apply Hq; eauto 20|].
  destruct (handle (bcrypt_hash _ _) s1) as [[hash|r1] s2]; cbn -[signupSteps];
    [|intros ? [<-|[<-|[]]]; apply Hq; eauto 20].
  unfold signupSteps. cbn.
  signup_cases handle;
    intros ev Hin;
    repeat (destruct Hin as [<-|Hin]; [apply Hq; eauto 20|]);
    contradiction.
Qed.

End SignupActionValues.

Section MoreExamples.
Import Zod CreateOperationDB Signup Calls Fixtures MoreFixtures.

(** A booking of one schema field, accepted *)
Lemma validatorOneDoc_sound_witness :
  exists name model,
    JString " booking" = JString name /\ processModelName name = Ret "Booking" /\
    bookingModels !! "Booking" = Some model.
Proof.
  destruct (proj2 (validatorOneDoc_sound (H:=exampleRuntime) bookingModels accepting
                     (JString " booking") (JObject [("total", JNull)]) tt tt "Booking"
                     (JObject [("total", JNull)]) _ eq_refl))
    as (name & model & props & H1 & H2 & H3 & _).
  exists name, model. auto.
Defined.

(** A booking with a foreign key: thrown, nothing called *)
Lemma createOneDoc_invalid_throws_witness :
  run accepting
    (createOneDoc (H:=exampleRuntime) bookingModels (JString "booking")
       (JObject [("admin", JNull)])) tt
  = (Throws (Error UnexpectedFields
       "The following keys are not allowed: admin, Only userId, total are allowed"),
     [], tt).
Proof.
  apply (createOneDoc_invalid_throws (H:=exampleRuntime) bookingModels accepting
           (JString "booking") (JObject [("admin", JNull)]) tt tt _ []).
  reflexivity.
Defined.

(** A booking that is saved *)
Lemma createOneDoc_returns_saved_witness :
  exists name n model,
    JString "booking" = JString name /\ processModelName name = Ret n /\
    bookingModels !! n = Some model.
Proof.
  destruct (createOneDoc_returns_saved (H:=exampleRuntime) bookingModels accepting
              (JString "booking") (JObject [("total", JNull)]) (JObject [("total", JNull)])
              tt tt _ eq_refl)
    as (name & n & model & doc & H1 & H2 & H3 & _).
  exists name, n, model. auto.
Defined.

(** A booking whose save is rejected: logged once, thrown again *)
Lemma createOneDoc_logs_write_failures_witness :
  let '(res, evs, _) :=
    run saveFails
      (createOneDoc (H:=exampleRuntime) bookingModels (JString "booking")
         (JObject [("total", JNull)])) tt in
  res = Throws (Rejected "E11000 duplicate key") /\
  List.filter isLog (map called evs) = [console_log (Rejected "E11000 duplicate key")].
Proof.
  pose proof (createOneDoc_logs_write_failures (H:=exampleRuntime) bookingModels saveFails
                (JString "booking") (JObject [("total", JNull)]) tt) as W.
  destruct (run saveFails _ tt) as [[res evs] s'] eqn:E.
  vm_compute in E. injection E as <- <- <-.
  destruct (proj1 W (existT (Document_save (JObject [("total", JNull)]))
                       (Rejects "E11000 duplicate key"))
              "E11000 duplicate key"
              (or_intror (or_intror (or_introl eq_refl))) eq_refl eq_refl)
    as (Hres & Hlog & _).
  split; [exact Hres | exact Hlog].
Defined.

(** A booking validated, constructed and saved *)
Lemma createOneDoc_persists_witness :
  run accepting
    (createOneDoc (H:=exampleRuntime) bookingModels (JString " booking")
       (JObject [("_id", JNull); ("total", JNull)])) tt
  = (Returns (JObject [("_id", JNull); ("total", JNull)]),
     [ existT (Model_validate "Booking" (JObject [("_id", JNull); ("total", JNull)])
                 ["userId"; "total"]) (Yields tt);
       existT (Model_new "Booking" (JObject [("_id", JNull); ("total", JNull)]))
         (Yields (JObject [("_id", JNull); ("total", JNull)]));
       existT (Document_save (JObject [("_id", JNull); ("total", JNull)]))
         (Yields (JObject [("_id", JNull); ("total", JNull)])) ],
     tt).
Proof.
  apply (createOneDoc_persists (H:=exampleRuntime) bookingModels accepting
           " booking" "Booking" {| schema_obj := [("userId", JNull); ("total", JNull)] |}
           [("_id", JNull); ("total", JNull)]
           (JObject [("_id", JNull); ("total", JNull)])
           (JObject [("_id", JNull); ("total", JNull)]) tt tt tt tt);
    try reflexivity.
  repeat constructor.
Defined.

(** [hotel] is the name of no model: nothing is inserted. *)
Lemma createManyDocs_unresolved_throws_witness :
  let '(res, evs, _) := run accepting (createManyDocs bookingModels " hotel" [JNull]) tt in
  (exists message, res = Throws (TypeError message)) /\ length evs = 1.
Proof.
  pose proof (createManyDocs_unresolved_throws bookingModels accepting " hotel"
                "h" "otel" [JNull] tt eq_refl eq_refl) as W.
  destruct (run accepting (createManyDocs bookingModels " hotel" [JNull]) tt)
    as [[res evs] s'] eqn:E.
  vm_compute in E. injection E as <- <- <-.
  destruct W as (message & Hr & _). split; [exists message; exact Hr | reflexivity].
Defined.

(** A form whose passwords differ, and collaborators that would reject
    every call *)
Lemma signUpAction_invalid_form_no_calls_witness :
  exists v,
    run rejecting
      (signUpAction (H:=exampleRuntime) [] JNull
         (entries "password1" "password2" [("acceptTerms", JString "on")])) tt
    = (Returns (Some v), [], tt) /\
    success v = false.
Proof.
  eexists. split.
  - apply (signUpAction_invalid_form_no_calls (H:=exampleRuntime) [] rejecting JNull
             (entries "password1" "password2" [("acceptTerms", JString "on")]) _ tt);
      reflexivity.
  - reflexivity.
Defined.

(** The form of Ann and a hashing that is rejected *)
Lemma signUpAction_early_rejection_thrown_witness :
  run hashFails (signUpAction (H:=exampleRuntime) [] JNull annEntries) tt
  = (Throws (Rejected "unavailable"),
     [ existT (User_exists (JObject [("email", JString "ann@example.org")])) (Yields JNull);
       existT (bcrypt_hash (JString "password1") 10) (Rejects "unavailable") ],
     tt).
Proof.
  apply (proj2 (signUpAction_early_rejection_thrown (H:=exampleRuntime) [] hashFails JNull
                  annEntries (annData "password1") tt eq_refl)
           JNull tt "unavailable" tt);
    reflexivity.
Defined.

(** The form of Ann and collaborators that answer every call *)
Lemma signUpAction_success_calls_witness :
  let '(res, evs, _) :=
    run allAnswer (signUpAction (H:=exampleRuntime) [] JNull annEntries) tt in
  res = Returns (Some created) /\ length evs = 8.
Proof.
  pose proof (signUpAction_success_calls (H:=exampleRuntime) [] allAnswer JNull
                annEntries tt) as W.
  destruct (run allAnswer _ tt) as [[res evs] s'] eqn:E.
  vm_compute in E. injection E as <- <- <-.
  destruct (W _ eq_refl eq_refl) as [_ _]. split; reflexivity.
Defined.

(** The account of Ann gets the hash. *)
Lemma signUpAction_password_only_hashed_witness :
  exists hashing pw,
    called hashing = bcrypt_hash pw 10 /\
    yielded hashing = Some (JString "$2b$10$hash").
Proof.
  pose proof (signUpAction_password_only_hashed (H:=exampleRuntime) [] allAnswer JNull
                annEntries tt) as W.
  destruct (run allAnswer _ tt) as [[res evs] s'] eqn:E.
  vm_compute in E. injection E as <- <- <-.
  destruct (proj2 (W _ (or_intror (or_intror (or_intror (or_intror (or_introl eq_refl))))))
              _ eq_refl) as (hashing & pw & _ & Hc & Hy).
  exists hashing, pw. split; [exact Hc | exact Hy].
Defined.

(** The form of Ann and a creation of the user that comes back with
    [null] *)
Lemma signUpAction_nullish_user_witness :
  let '(res, evs, _) :=
    run nullUser (signUpAction (H:=exampleRuntime) [] JNull annEntries) tt in
  res = Returns (Some genericFailure) /\ length evs = 5.
Proof.
  pose proof (signUpAction_nullish_user (H:=exampleRuntime) [] nullUser JNull
                annEntries tt) as W.
  destruct (run nullUser _ tt) as [[res evs] s'] eqn:E.
  vm_compute in E. injection E as <- <- <-.
  split; [|reflexivity].
  refine (proj1 (W (existT (createUser (JObject
            [ ("firstName", JString "Ann"); ("lastName", JString "Lee");
              ("email", JString "ann@example.org"); ("phone", JUndefined) ]))
            (Yields JNull)) _ eq_refl (or_introl eq_refl))).
  do 3 right. left. reflexivity.
Defined.

(** The form of Ann: the first call carries her email. *)
Lemma signUpAction_uses_checked_values_witness :
  exists email pw fn ln,
    getMember (Object_fromEntries annEntries) "email" = JString email /\
    getMember (Object_fromEntries annEntries) "password" = JString pw /\
    getMember (Object_fromEntries annEntries) "firstname" = JString fn /\
    getMember (Object_fromEntries annEntries) "lastname" = JString ln.
Proof.
  pose proof (signUpAction_uses_checked_values (H:=exampleRuntime) [] allAnswer JNull
                annEntries tt) as W.
  destruct (run allAnswer _ tt) as [[res evs] s'] eqn:E.
  vm_compute in E. injection E as <- <- <-.
  destruct (W _ (or_introl eq_refl)) as (email & pw & fn & ln & H1 & H2 & H3 & H4 & _).
  exists email, pw, fn, ln. auto.
Defined.

(** The form of Ann *)
Lemma validateSignupFormData_sound_witness :
  exists email pw fn ln terms,
    textFields (entries "password1" "password1" [("acceptTerms", JString "on")])
      email pw pw fn ln terms /\
    trim email <> EmptyString /\ emailRegex_test (Runtime:=exampleRuntime) (trim email) = true /\
    8 <= String.length pw /\
    trim fn <> EmptyString /\ trim ln <> EmptyString /\
    includes "on" terms = true.
Proof.
  exact (validateSignupFormData_sound (H:=exampleRuntime) annEntries
           (annData "password1") eq_refl).
Defined.

Lemma validateSignupFormData_data_witness :
  exists email pw fn ln terms phone,
    textFields (("nickname", JString "A") :: annEntries) email pw pw fn ln terms /\
    annData "password1"
    = JObject
          ([ ("email", JString (trim email)); ("password", JString pw);
             ("confirmPassword", JString pw); ("firstname", JString (trim fn));
             ("lastname", JString (trim ln)); ("acceptTerms", JString terms) ]
           ++ phone) /\
    (phone = [] \/ exists v, phone = [("phone", v)]).
Proof.
  exact (validateSignupFormData_data (H:=exampleRuntime)
           (("nickname", JString "A") :: annEntries) (annData "password1") eq_refl).
Defined.

Lemma validateSignupFormData_phone_witness :
  getMember (annData "password1") "phone" = JUndefined \/
  exists number dialCode,
    getMember (annData "password1") "phone"
    = JObject [("number", JString number); ("dialCode", JString dialCode)] /\
    test_digits number = true /\ dialCode <> EmptyString.
Proof.
  exact (validateSignupFormData_phone (H:=exampleRuntime) annEntries
           (annData "password1") eq_refl).
Defined.

(** A form with a short password and no terms *)
Lemma validateSignupFormData_last_issue_wins_witness :
  exists issues (errors : gmap string string),
    safeParse (signupSchema (H:=exampleRuntime))
      (JObject (entries "pass" "word" [("acceptTerms", JString "off")]))
    = Returns (SafeParseError issues) /\
    errors !! "confirmPassword"
    = last (map Zod.message
              (List.filter (fun i => String.eqb (path0 i) "confirmPassword") issues)).
Proof.
  destruct (validateSignupFormData_last_issue_wins (H:=exampleRuntime)
              (JObject (entries "pass" "word" [("acceptTerms", JString "off")]))
              _ eq_refl eq_refl) as (issues & errors & Hp & _ & Hl).
  exists issues, errors. split; [exact Hp | apply Hl].
Defined.

Lemma validateSignupFormData_errors_name_fields_witness :
  exists errors : gmap string string,
    errors <> ∅ /\
    forall key, is_Some (errors !! key) ->
      In key ["email"; "password"; "confirmPassword"; "firstname"; "lastname";
              "acceptTerms"; "phone"].
Proof.
  eexists.
  apply (validateSignupFormData_errors_name_fields (H:=exampleRuntime)
           (entries "pass" "word" [("acceptTerms", JString "off")])).
  reflexivity.
Defined.

End MoreExamples.
